(** * Conversor MP4 -> MP3: a shallow embedding of [streamlit_app.py]

    The script validates uploaded files, runs [ffmpeg] once per accepted
    file, collects successes and failures, and zips the outputs when there
    is more than one.

    How the script is modelled:
    - the file system is a finite map from path strings to the bytes
      stored there (files only, POSIX paths, case-sensitive names); a
      file in the map can be read, permissions and time stamps are not
      modelled;
    - the script is a state transformer on a [World]: the files, a log of
      the processes launched and a log of the archives written;
    - the external program, the name [tempfile] picks and the archive
      serialisation are parameters: every theorem holds for any choice of
      them, and the concrete choices further down only serve to run the
      model;
    - an exception is a value: a function that can let one escape returns
      a [py_result];
    - Streamlit's elements only display; what they are given is recorded
      in the page the script returns.  One of them can fail where the
      script uses it, and that is modelled: a download button that is the
      same as one created earlier in the run raises. *)

From Stdlib Require Import ZArith Lia Bool List Ascii String.
From Stdlib Require Import Init.Byte.
From Stdlib Require Import DecimalString.
From stdpp Require Import base option list gmap strings fin_maps.

Open Scope string_scope.
Open Scope Z_scope.

(* stdpp freezes [String.append] under [simpl]; the proofs below compute
   with it. *)
#[local] Arguments String.append !s1 s2 : simpl nomatch.

(** ** Python [str] primitives

    A Python text is held as its UTF-8 bytes.  A character outside ASCII
    is a sequence of bytes above 127, so a byte below 128 is always a
    whole character.  [lower] maps the ASCII letters only (the script
    uses it to test an ASCII suffix); the whitespace that [strip] removes
    is all of Python's, the characters outside ASCII by their two- and
    three-byte encodings. *)
Module Str.

Definition nl : string := String "010"%char "".

(** [c.lower()] on one character. *)
Definition lower_ascii (c : ascii) : ascii :=
  let n := N_of_ascii c in
  if ((65 <=? n) && (n <=? 90))%N then ascii_of_N (n + 32) else c.

(** [s.lower()] *)
Fixpoint lower (s : string) : string :=
  match s with
  | EmptyString => EmptyString
  | String c s' => String (lower_ascii c) (lower s')
  end.

(** [s.endswith(suf)]: some tail of [s] is [suf]. *)
Fixpoint endswith (s suf : string) : bool :=
  String.eqb s suf ||
  match s with
  | EmptyString => false
  | String _ s' => endswith s' suf
  end.

(** [c.isspace()] for a one-byte character: tab, line feed, vertical
    tab, form feed, carriage return, the four separators 28..31 and the
    space. *)
Definition isspace (c : ascii) : bool :=
  let n := N_of_ascii c in
  (((9 <=? n) && (n <=? 13)) || ((28 <=? n) && (n <=? 32)))%N.

Definition byte_is (c : ascii) (n : N) : bool := (N_of_ascii c =? n)%N.

(** The whitespace characters with a two-byte encoding: U+0085 (c2 85)
    and U+00A0 (c2 a0). *)
Definition space2 (c d : ascii) : bool :=
  byte_is c 194 && (byte_is d 133 || byte_is d 160).

(** The whitespace characters with a three-byte encoding: U+1680
    (e1 9a 80); U+2000..U+200A, U+2028, U+2029, U+202F (e2 80 80..8a,
    a8, a9, af); U+205F (e2 81 9f); U+3000 (e3 80 80). *)
Definition space3 (c d e : ascii) : bool :=
  let x := N_of_ascii e in
  (byte_is c 225 && byte_is d 154 && byte_is e 128)
  || (byte_is c 226 && byte_is d 128 &&
      (((128 <=? x) && (x <=? 138))%N || byte_is e 168 || byte_is e 169
       || byte_is e 175))
  || (byte_is c 226 && byte_is d 129 && byte_is e 159)
  || (byte_is c 227 && byte_is d 128 && byte_is e 128).

(** [s.lstrip()]: drop whitespace characters, of one, two or three
    bytes, from the front. *)
Fixpoint lstrip (s : string) : string :=
  match s with
  | EmptyString => EmptyString
  | String c s1 =>
      if isspace c then lstrip s1
      else
        match s1 with
        | EmptyString => s
        | String d s2 =>
            if space2 c d then lstrip s2
            else
              match s2 with
              | EmptyString => s
              | String e s3 => if space3 c d e then lstrip s3 else s
              end
        end
  end.

(** [s.rstrip()]: the text up to the point from which only whitespace
    follows. *)
Fixpoint rstrip (s : string) : string :=
  match s with
  | EmptyString => EmptyString
  | String c s' =>
      if String.eqb (lstrip s) "" then EmptyString else String c (rstrip s')
  end.

(** [s.strip()] *)
Definition strip (s : string) : string := rstrip (lstrip s).

(** [s.split(sep)] for a one-character separator: never empty, one more
    field than there are separators. *)
Fixpoint split (sep : ascii) (s : string) : list string :=
  match s with
  | EmptyString => [EmptyString]
  | String c s' =>
      if Ascii.eqb c sep then EmptyString :: split sep s'
      else match split sep s' with
           | [] => [String c EmptyString]
           | w :: ws => String c w :: ws
           end
  end.

(** [l[-1]] on a list of strings known to be non-empty. *)
Definition last_field (l : list string) : string := List.last l EmptyString.

(** [s.rfind(c)]: index of the last [c], [-1] when there is none. *)
Fixpoint rfind (c : ascii) (s : string) : Z :=
  match s with
  | EmptyString => -1
  | String a s' =>
      let r := rfind c s' in
      if 0 <=? r then r + 1
      else if Ascii.eqb a c then 0 else -1
  end.

(** [s[:i]] for [0 <= i]. *)
Definition take (i : Z) (s : string) : string := String.substring 0 (Z.to_nat i) s.

(** [s.removeprefix(pre)], with [None] when [s] does not start with [pre]. *)
Fixpoint strip_prefix (pre s : string) : option string :=
  match pre with
  | EmptyString => Some s
  | String a pre' =>
      match s with
      | EmptyString => None
      | String b s' => if Ascii.eqb a b then strip_prefix pre' s' else None
      end
  end.

Definition len (s : string) : Z := Z.of_nat (String.length s).

(** [c * k] *)
Fixpoint replicate (k : nat) (c : ascii) : string :=
  match k with
  | O => EmptyString
  | S k' => String c (replicate k' c)
  end.

(** [c in s] *)
Fixpoint contains (c : ascii) (s : string) : bool :=
  match s with
  | EmptyString => false
  | String a s' => Ascii.eqb a c || contains c s'
  end.

(** A text of printable ASCII characters only (32..126). *)
Fixpoint printable_ascii (s : string) : bool :=
  match s with
  | EmptyString => true
  | String c s' =>
      ((32 <=? N_of_ascii c) && (N_of_ascii c <=? 126))%N && printable_ascii s'
  end.

Definition hex_digit (n : N) : ascii :=
  ascii_of_N (if (n <? 10)%N then 48 + n else 87 + n).

(** One character of [repr(s)] between the quotes [q]: the quote and the
    backslash take a backslash, tab, line feed and carriage return their
    letter, the other control characters their two hexadecimal digits.
    (A character outside ASCII is copied; Python escapes those it does
    not take as printable.) *)
Definition repr_char (q c : ascii) : string :=
  let n := N_of_ascii c in
  if Ascii.eqb c q || Ascii.eqb c "092" then String "092" (String c "")
  else if (n =? 9)%N then String "092" "t"
  else if (n =? 10)%N then String "092" "n"
  else if (n =? 13)%N then String "092" "r"
  else if ((n <? 32) || (n =? 127))%N then
    String "092" (String "x" (String (hex_digit (n / 16))
                                     (String (hex_digit (n mod 16)) "")))
  else String c "".

Fixpoint repr_body (q : ascii) (s : string) : string :=
  match s with
  | EmptyString => EmptyString
  | String c s' => repr_char q c ++ repr_body q s'
  end.

(** [repr(s)]: single quotes, unless the text has a single quote and no
    double quote. *)
Definition repr (s : string) : string :=
  let q := if contains "'" s && negb (contains "034" s)
           then "034"%char else "'"%char in
  String q (repr_body q s ++ String q "").

End Str.

(** ** Uploaded files and validation *)

Definition bytes := list byte.

(** Streamlit's [UploadedFile]: the attributes the script reads. *)
Record UploadedFile := {
  name : string;
  size : Z;
  getbuffer : bytes
}.

Definition MAX_SIZE : Z := 500 * 1024 * 1024.

(** [validate_file] *)
Definition validate_file (uploaded_file : UploadedFile) : bool * string :=
  if negb (Str.endswith (Str.lower (name uploaded_file)) ".mp4") then
    (false, "'" ++ name uploaded_file ++ "' não é um arquivo .mp4")
  else if size uploaded_file =? 0 then
    (false, "'" ++ name uploaded_file ++ "' está vazio")
  else if size uploaded_file >? MAX_SIZE then
    (false, "'" ++ name uploaded_file ++ "' excede 500 MB")
  else (true, "").

(** ** Paths ([pathlib.PurePosixPath], as far as the script uses it) *)

Definition OUTPUT_DIR : string := "output".

(** [dir / child] for a relative [child]. *)
Definition path_join (dir child : string) : string := dir ++ "/" ++ child.

(** [p.name]: the final component, the text after the last slash (the
    script only asks for the name of paths that do not end in a slash). *)
Definition path_name (p : string) : string := Str.last_field (Str.split "/" p).

(** [p.stem]: the final component without its suffix; a leading or a
    trailing dot does not start a suffix. *)
Definition path_stem (p : string) : string :=
  let nm := path_name p in
  let i := Str.rfind "." nm in
  if (0 <? i) && (i <? Str.len nm - 1) then Str.take i nm else nm.

(** [Some n] when [p] is the entry named [n] directly inside [dir]. *)
Definition child_of (dir p : string) : option string :=
  match Str.strip_prefix (dir ++ "/") p with
  | Some n => if String.eqb n "" || Str.contains "/" n then None else Some n
  | None => None
  end.

(** [fnmatch]: shell pattern matching with [*] and [?], case-sensitive
    (POSIX); the script's only pattern has no bracket expression. *)
Fixpoint fnmatch (pat : string) (s : string) {struct pat} : bool :=
  match pat with
  | EmptyString => String.eqb s ""
  | String c pat' =>
      if Ascii.eqb c "*" then
        (fix star (t : string) : bool :=
           fnmatch pat' t ||
           match t with
           | EmptyString => false
           | String _ t' => star t'
           end) s
      else
        match s with
        | EmptyString => false
        | String a s' => (Ascii.eqb c "?" || Ascii.eqb a c) && fnmatch pat' s'
        end
  end.

(** ** The world: files, the external process, exceptions *)

(** The exceptions [subprocess.run] and file access can raise, each with
    the text [str(e)] gives.  All are subclasses of [Exception]; the
    classes are taken disjoint: [OSError] stands for an OS error that is
    neither of the two above it, [OtherException] for any other subclass
    (a decoding error of the captured output, say).
    [StreamlitDuplicateElementId] is what Streamlit raises when the
    script creates an element identical to one it has created before; it
    carries the type of the element, as the class is constructed. *)
Inductive py_exception :=
| FileNotFoundError (msg : string)
| PermissionError (msg : string)
| OSError (msg : string)
| TimeoutExpired (msg : string)
| OtherException (msg : string)
| StreamlitDuplicateElementId (element_type : string).

(** [str(e)]; for the last class, the text Streamlit builds around the
    element type (the script never asks for it). *)
Definition str_exception (e : py_exception) : string :=
  match e with
  | FileNotFoundError m | PermissionError m | OSError m
  | TimeoutExpired m | OtherException m => m
  | StreamlitDuplicateElementId t =>
      "There are multiple `" ++ t ++ "` elements with the same auto-generated ID. "
      ++ "When this element is created, it is assigned an internal ID based on "
      ++ "the element type and provided parameters. Multiple elements with the "
      ++ "same type and parameters will cause this error."
      ++ Str.nl ++ Str.nl
      ++ "To fix this error, please pass a unique `key` argument to the `"
      ++ t ++ "` element."
  end.

(** The text of the [FileNotFoundError] that opening or examining a
    missing file raises. *)
Definition no_such_file (p : string) : string :=
  "[Errno 2] No such file or directory: " ++ Str.repr p.

Inductive py_result (A : Type) :=
| Return (a : A)
| Raise (e : py_exception).
Arguments Return {A} a.
Arguments Raise {A} e.

(** [subprocess.CompletedProcess] *)
Record CompletedProcess := {
  returncode : Z;
  stdout : string;
  stderr : string
}.

(** The file system maps a path to the bytes stored there; [runs] logs
    every process the script launched, with its timeout; [archives] logs
    every archive the script closed, with the members written to it. *)
Record World := {
  fs : gmap string bytes;
  runs : list (list string * Z);
  archives : list (string * list (string * bytes))
}.

Definition M (A : Type) : Type := World -> A * World.
Definition ret {A} (a : A) : M A := fun w => (a, w).
Definition bind {A B} (c : M A) (k : A -> M B) : M B :=
  fun w => let '(a, w') := c w in k a w'.
Notation "'let*' x ':=' c 'in' k" := (bind c (fun x => k))
  (at level 10, x pattern, c at level 100, k at level 200).

Definition get_fs : M (gmap string bytes) := fun w => (fs w, w).
Definition put_fs (f : gmap string bytes) : M unit :=
  fun w => (tt, {| fs := f; runs := runs w; archives := archives w |}).

(** The archive writer's log entry. *)
Definition log_archive (zip_path : string) (members : list (string * bytes)) : M unit :=
  fun w => (tt, {| fs := fs w; runs := runs w;
                   archives := (archives w ++ [(zip_path, members)])%list |}).

(** [p.exists()], [p.stat().st_size] (guarded by [exists] in the script),
    [p.unlink()] on an existing file, [p.unlink(missing_ok=True)],
    [p.read_bytes()]. *)
Definition path_exists (p : string) : M bool :=
  let* f := get_fs in ret (bool_decide (is_Some (f !! p))).
Definition st_size (p : string) : M Z :=
  let* f := get_fs in
  ret (match f !! p with Some d => Z.of_nat (List.length d) | None => 0 end).
Definition unlink (p : string) : M unit :=
  let* f := get_fs in put_fs (delete p f).
Definition read_bytes (p : string) : M (py_result bytes) :=
  let* f := get_fs in
  ret (match f !! p with
       | Some d => Return d
       | None => Raise (FileNotFoundError (no_such_file p))
       end).

(** The script's result dictionary [{"success": ..., "error": ...}]. *)
Record ConvResult := {
  success : bool;
  error : option string
}.
Definition conv_ok : ConvResult := {| success := true; error := None |}.
Definition conv_fail (m : string) : ConvResult := {| success := false; error := Some m |}.

(** [result['error']] *)
Definition error_of (r : ConvResult) : string := default "" (error r).

Definition MSG_EMPTY_OUTPUT : string := "Arquivo de saída vazio ou não criado.".
Definition MSG_TIMEOUT : string := "Timeout: conversão demorou mais de 5 minutos.".
Definition ZIP_NAME : string := "todos_mp3.zip".

(** The f-string of a failure: the upload's name, a colon, the message. *)
Definition error_line (uploaded_name message : string) : string :=
  uploaded_name ++ ": " ++ message.

(** What the page offers for download: a file name and its bytes. *)
Record Download := {
  file_name : string;
  data : bytes
}.

Definition decimal (n : N) : string := NilEmpty.string_of_uint (N.to_uint n).

(** [f"{n / (1024 * 1024):.1f}"] for a size of [n] bytes: the size in
    tenths of a megabyte, rounded to the nearest, a tie to the even one
    (the quotient is exact in floating point below 2^53 bytes). *)
Definition size_mb_text (n : N) : string :=
  let q := (10 * n / 1048576)%N in
  let r := ((10 * n) mod 1048576)%N in
  let t := if (r <? 524288)%N then q
           else if (524288 <? r)%N then (q + 1)%N
           else if N.even q then q else (q + 1)%N in
  decimal (t / 10) ++ "." ++ decimal (t mod 10).

(** [label=f"🎶 {mp3_path.name} ({size_mb:.1f} MB)"] *)
Definition button_label (b : Download) : string :=
  "🎶 " ++ file_name b ++ " (" ++ size_mb_text (N.of_nat (length (data b))) ++ " MB)".

(** Streamlit tells the download buttons of the script apart by the
    parameters that vary between them, the label and the file name; two
    buttons that agree on both are one element created twice. *)
Definition same_button (a b : Download) : bool :=
  String.eqb (button_label a) (button_label b)
  && String.eqb (file_name a) (file_name b).

(** What the button's body shows. *)
Record BatchView := {
  converted_files : list string;
  errors : list string;
  downloads : list Download;
  bundle : option Download
}.

Inductive Page :=
| PageNoFfmpeg
| PageUploadPrompt
| PageQueue (valid_files : list UploadedFile) (invalid_files : list string)
| PageResults (valid_files : list UploadedFile) (invalid_files : list string)
              (view : BatchView).

Section Script.

(** The external program behind [subprocess.run]: given the argument
    vector, the timeout and the files, it completes or makes [run]
    raise, and leaves the files as it likes. *)
Variable process : list string -> Z -> gmap string bytes ->
                   py_result CompletedProcess * gmap string bytes.

(** [tempfile.NamedTemporaryFile(suffix=...)]: the name it picks. *)
Variable mktemp : gmap string bytes -> string -> string.

(** [zipfile]'s serialisation of an ordered member list. *)
Variable zip_encode : list (string * bytes) -> bytes.

Definition subprocess_run (argv : list string) (timeout : Z)
  : M (py_result CompletedProcess) :=
  fun w =>
    let '(r, f) := process argv timeout (fs w) in
    (r, {| fs := f; runs := (runs w ++ [(argv, timeout)])%list;
           archives := archives w |}).

(** [check_ffmpeg] *)
Definition check_ffmpeg : M (py_result bool) :=
  let* r := subprocess_run ["ffmpeg"; "-version"] 10 in
  match r with
  | Return result => ret (Return (returncode result =? 0))
  | Raise (FileNotFoundError _) | Raise (TimeoutExpired _) => ret (Return false)
  | Raise e => ret (Raise e)
  end.

Definition ffmpeg_argv (input_path output_path : string) : list string :=
  ["ffmpeg"; "-y"; "-i"; input_path; "-vn"; "-acodec"; "libmp3lame";
   "-ab"; "192k"; "-ar"; "44100"; output_path].

(** [convert_mp4_to_mp3] *)
Definition convert_mp4_to_mp3 (input_path output_path : string) : M ConvResult :=
  let* r := subprocess_run (ffmpeg_argv input_path output_path) 300 in
  match r with
  | Return result =>
      if negb (returncode result =? 0) then
        ret (conv_fail (Str.last_field (Str.split "010" (Str.strip (stderr result)))))
      else
        let* ex := path_exists output_path in
        let* sz := st_size output_path in
        if negb ex || (sz =? 0) then ret (conv_fail MSG_EMPTY_OUTPUT)
        else ret conv_ok
  | Raise (TimeoutExpired _) => ret (conv_fail MSG_TIMEOUT)
  | Raise e => ret (conv_fail (str_exception e))
  end.

(** The members [zf.write(f, f.name)] stores, in order, up to the first
    file that is not there. *)
Fixpoint zip_members (f : gmap string bytes) (mp3_files : list string)
  : list (string * bytes) * option py_exception :=
  match mp3_files with
  | [] => ([], None)
  | p :: rest =>
      match f !! p with
      | None => ([], Some (FileNotFoundError (no_such_file p)))
      | Some d =>
          let '(ms, e) := zip_members f rest in ((path_name p, d) :: ms, e)
      end
  end.

(** [create_zip]: opening the archive for writing creates it, or empties
    the one that is there, before any member is read; the archive is
    written when the [with] block is left, also when a member was missing
    and the exception goes on.  (An archive given as its own member is
    read as the open left it, empty; what is read of it once other
    members have been written is not modelled.) *)
Definition create_zip (mp3_files : list string) : M (py_result string) :=
  let zip_path := path_join OUTPUT_DIR ZIP_NAME in
  let* f0 := get_fs in
  let f := <[zip_path := []]> f0 in
  let '(members, e) := zip_members f mp3_files in
  let* _ := put_fs (<[zip_path := zip_encode members]> f) in
  let* _ := log_archive zip_path members in
  match e with
  | None => ret (Return zip_path)
  | Some ex => ret (Raise ex)
  end.

(** [OUTPUT_DIR.glob(pattern)] *)
Definition glob (dir pattern : string) (f : gmap string bytes) : list string :=
  List.filter
    (fun p => match child_of dir p with
              | Some n => fnmatch pattern n
              | None => false
              end)
    (map fst (map_to_list f)).

(** The clearing step: the first five lines of the button's body. *)
Definition clear_outputs : M unit :=
  let* f := get_fs in
  let* _ := put_fs (foldl (fun g old => delete old g) f (glob OUTPUT_DIR "*.mp3" f)) in
  let zip_old := path_join OUTPUT_DIR ZIP_NAME in
  let* ex := path_exists zip_old in
  if ex then unlink zip_old else ret tt.

(** [NamedTemporaryFile(suffix, delete=False)], [tmp.write(buf)] and the
    end of the [with] block: the copy stays on disk under [tmp.name]. *)
Definition write_temp (suffix : string) (buf : bytes) : M string :=
  let* f := get_fs in
  let tmp_path := mktemp f suffix in
  let* _ := put_fs (<[tmp_path := buf]> f) in
  ret tmp_path.

Definition mp3_name (uploaded : UploadedFile) : string :=
  path_stem (name uploaded) ++ ".mp3".
Definition output_path (uploaded : UploadedFile) : string :=
  path_join OUTPUT_DIR (mp3_name uploaded).

(** One turn of the conversion loop, on the two accumulators. *)
Definition convert_item (uploaded : UploadedFile) (acc : list string * list string)
  : M (list string * list string) :=
  let '(converted, errs) := acc in
  let* tmp_path := write_temp ".mp4" (getbuffer uploaded) in
  let* result := convert_mp4_to_mp3 tmp_path (output_path uploaded) in
  let* _ := unlink tmp_path in
  if success result then ret ((converted ++ [output_path uploaded])%list, errs)
  else ret (converted, (errs ++ [error_line (name uploaded) (error_of result)])%list).

(** [for idx, uploaded in enumerate(valid_files): ...] *)
Fixpoint convert_loop (valid_files : list UploadedFile)
         (acc : list string * list string) : M (list string * list string) :=
  match valid_files with
  | [] => ret acc
  | uploaded :: rest =>
      let* acc' := convert_item uploaded acc in convert_loop rest acc'
  end.

(** [for mp3_path in converted_files: file_bytes = mp3_path.read_bytes();
    st.download_button(...)]: each file is read and then offered;
    [shown] holds the buttons created so far, and a button that is the
    same as one of them makes Streamlit raise. *)
Fixpoint read_downloads (paths : list string) (shown : list Download)
  : M (py_result (list Download)) :=
  match paths with
  | [] => ret (Return [])
  | p :: rest =>
      let* r := read_bytes p in
      match r with
      | Raise e => ret (Raise e)
      | Return d =>
          let button := {| file_name := path_name p; data := d |} in
          if existsb (same_button button) shown then
            ret (Raise (StreamlitDuplicateElementId "download_button"))
          else
            let* rs := read_downloads rest (button :: shown) in
            match rs with
            | Raise e => ret (Raise e)
            | Return ds => ret (Return (button :: ds))
            end
      end
  end.

(** The result section of the page.  (The button for the archive has a
    label of its own and is never the same as a button for a file.) *)
Definition deliver (converted errs : list string) : M (py_result BatchView) :=
  match converted with
  | [] => ret (Return {| converted_files := converted; errors := errs;
                         downloads := []; bundle := None |})
  | _ :: _ =>
      let* r := read_downloads converted [] in
      match r with
      | Raise e => ret (Raise e)
      | Return ds =>
          if 1 <? Z.of_nat (List.length converted) then
            let* z := create_zip converted in
            match z with
            | Raise e => ret (Raise e)
            | Return zip_path =>
                let* zb := read_bytes zip_path in
                match zb with
                | Raise e => ret (Raise e)
                | Return zip_bytes =>
                    ret (Return {| converted_files := converted; errors := errs;
                                   downloads := ds;
                                   bundle := Some {| file_name := ZIP_NAME;
                                                     data := zip_bytes |} |})
                end
            end
          else ret (Return {| converted_files := converted; errors := errs;
                              downloads := ds; bundle := None |})
      end
  end.

(** The body of the convert button. *)
Definition run_batch (valid_files : list UploadedFile) : M (py_result BatchView) :=
  let* _ := clear_outputs in
  let* acc := convert_loop valid_files ([], []) in
  deliver (fst acc) (snd acc).

(** [for f in uploaded_files: ...]: the two validation lists. *)
Fixpoint validate_all (uploaded_files : list UploadedFile)
  : list UploadedFile * list string :=
  match uploaded_files with
  | [] => ([], [])
  | f :: rest =>
      let '(valid, invalid) := validate_all rest in
      let '(is_valid, reason) := validate_file f in
      if is_valid then (f :: valid, invalid) else (valid, reason :: invalid)
  end.

(** The page below the capability check; [clicked] is the button. *)
Definition page (uploaded_files : list UploadedFile) (clicked : bool)
  : M (py_result Page) :=
  match uploaded_files with
  | [] => ret (Return PageUploadPrompt)
  | _ :: _ =>
      let '(valid_files, invalid_files) := validate_all uploaded_files in
      match valid_files with
      | [] => ret (Return (PageQueue valid_files invalid_files))
      | _ :: _ =>
          if clicked then
            let* r := run_batch valid_files in
            match r with
            | Raise e => ret (Raise e)
            | Return v => ret (Return (PageResults valid_files invalid_files v))
            end
          else ret (Return (PageQueue valid_files invalid_files))
      end
  end.

(** The whole script. *)
Definition script (uploaded_files : list UploadedFile) (clicked : bool)
  : M (py_result Page) :=
  let* ok := check_ffmpeg in
  match ok with
  | Raise e => ret (Raise e)
  | Return false => ret (Return PageNoFfmpeg)
  | Return true => page uploaded_files clicked
  end.

End Script.

(** ** Vocabulary of the statements *)

(** The paths the clearing step is after: an entry of [OUTPUT_DIR] whose
    name matches [*.mp3], or the archive. *)
Definition stale_artifact (p : string) : bool :=
  match child_of OUTPUT_DIR p with
  | Some n => fnmatch "*.mp3" n || String.eqb n ZIP_NAME
  | None => false
  end.

(** The files that are no such artifact. *)
Definition keep_others (f : gmap string bytes) : gmap string bytes :=
  filter (fun kv => stale_artifact kv.1 = false) f.

(** The files the clearing step leaves: its two deletions, written as one
    expression. *)
Definition cleared (f : gmap string bytes) : gmap string bytes :=
  delete (path_join OUTPUT_DIR ZIP_NAME)
         (foldl (fun g old => delete old g) f (glob OUTPUT_DIR "*.mp3" f)).

(** The world with other files. *)
Definition with_fs (w : World) (f : gmap string bytes) : World :=
  {| fs := f; runs := runs w; archives := archives w |}.

(** The world after one more process. *)
Definition after_run (w : World) (argv : list string) (timeout : Z)
           (f : gmap string bytes) : World :=
  {| fs := f; runs := (runs w ++ [(argv, timeout)])%list; archives := archives w |}.

(** The last non-empty line of a text, in the words of the specification:
    cut the text at the line feeds, drop the empty lines, take the last. *)
Definition last_nonempty_line (text : string) : option string :=
  List.last
    (map Some (List.filter (fun l => negb (String.eqb l "")) (Str.split "010" text)))
    None.

(** A pattern without wildcard. *)
Fixpoint is_literal (pat : string) : bool :=
  match pat with
  | EmptyString => true
  | String c pat' => negb (Ascii.eqb c "*") && negb (Ascii.eqb c "?") && is_literal pat'
  end.

(** The text is empty or ends with the separator. *)
Definition closed_by (sep : ascii) (a : string) : Prop :=
  a = "" \/ exists a', a = a' ++ String sep "".

(** A line that neither begins nor ends with whitespace. *)
Definition trimmed (l : string) : Prop := Str.lstrip l = l /\ Str.rstrip l = l.

(** What one item came to: [None] for a success, the message otherwise. *)
Definition success_of (p : UploadedFile * option string) : option string :=
  match p.2 with
  | None => Some (output_path p.1)
  | Some _ => None
  end.
Definition failure_of (p : UploadedFile * option string) : option string :=
  match p.2 with
  | None => None
  | Some m => Some (error_line (name p.1) m)
  end.

(** What [read_bytes] and the download button make of a converted file
    that is there. *)
Definition download_of (f : gmap string bytes) (p : string) : Download :=
  {| file_name := path_name p; data := default ([] : bytes) (f !! p) |}.

(** An entry of [OUTPUT_DIR] that is not there and that the operating
    system reports as such, so that Python raises [FileNotFoundError]
    with its usual text: the name is printable ASCII of at most 255
    bytes, and [OUTPUT_DIR] is not itself a file. *)
Definition missing_output (f : gmap string bytes) (q : string) : Prop :=
  f !! q = None /\ f !! OUTPUT_DIR = None /\
  exists n, child_of OUTPUT_DIR q = Some n /\
            Str.printable_ascii n = true /\ Str.len n <= 255.

(** A download seen as an archive member. *)
Definition member_of (d : Download) : string * bytes := (file_name d, data d).

(** The process launched for an item, given its temporary copy. *)
Definition run_of (p : UploadedFile * string) : list string * Z :=
  (ffmpeg_argv p.2 (output_path p.1), 300).

(** ** Concrete environments, used to run the model *)

Definition ID3 : bytes := [x49; x44; x33].

(** An [ffmpeg] that answers the version query, and converts by writing
    a three-byte file to its last argument. *)
Definition ffmpeg_good (argv : list string) (timeout : Z) (f : gmap string bytes)
  : py_result CompletedProcess * gmap string bytes :=
  match argv with
  | [_; _] => (Return {| returncode := 0; stdout := "ffmpeg version 6.0"; stderr := "" |}, f)
  | _ => (Return {| returncode := 0; stdout := ""; stderr := "" |},
          <[List.last argv "" := ID3]> f)
  end.

(** An [ffmpeg] that has written part of its output when the time limit
    strikes. *)
Definition ffmpeg_slow (argv : list string) (timeout : Z) (f : gmap string bytes)
  : py_result CompletedProcess * gmap string bytes :=
  match argv with
  | [_; _] => (Return {| returncode := 0; stdout := "ffmpeg version 6.0"; stderr := "" |}, f)
  | _ => (Raise (TimeoutExpired "Command 'ffmpeg' timed out after 300 seconds"),
          <[List.last argv "" := [x49]]> f)
  end.

(** An [ffmpeg] binary that is present but may not be executed. *)
Definition ffmpeg_denied (argv : list string) (timeout : Z) (f : gmap string bytes)
  : py_result CompletedProcess * gmap string bytes :=
  (Raise (PermissionError "[Errno 13] Permission denied: 'ffmpeg'"), f).

(** An [ffmpeg] that exits with status 1 and the given diagnostics. *)
Definition ffmpeg_failing (diag : string) (argv : list string) (timeout : Z)
           (f : gmap string bytes)
  : py_result CompletedProcess * gmap string bytes :=
  (Return {| returncode := 1; stdout := ""; stderr := diag |}, f).

(** A process that converts like [ffmpeg_good], except that for the
    output [output/c.mp3] it removes [output/a.mp3] and fails. *)
Definition ffmpeg_fickle (argv : list string) (timeout : Z) (f : gmap string bytes)
  : py_result CompletedProcess * gmap string bytes :=
  if String.eqb (List.last argv "") "output/c.mp3"
  then (Return {| returncode := 1; stdout := ""; stderr := "c.mp4: failed" |},
        delete "output/a.mp3" f)
  else ffmpeg_good argv timeout f.

(** An [ffmpeg] that reports success and writes nothing. *)
Definition ffmpeg_silent (argv : list string) (timeout : Z) (f : gmap string bytes)
  : py_result CompletedProcess * gmap string bytes :=
  (Return {| returncode := 0; stdout := ""; stderr := "" |}, f).

Definition mktemp_fixed (f : gmap string bytes) (suffix : string) : string :=
  "/tmp/tmpupload" ++ suffix.

(** A stand-in for the archive writer: the members' bytes, one after the
    other, behind the two signature bytes. *)
Definition zip_concat (members : list (string * bytes)) : bytes :=
  ([x50; x4b] ++ flat_map snd members)%list.

Definition upload (n : string) : UploadedFile :=
  {| name := n; size := 4; getbuffer := [x00; x00; x00; x18] |}.

(** An upload the validator rejects: the file is empty. *)
Definition empty_mp4 : UploadedFile :=
  {| name := "empty.mp4"; size := 0; getbuffer := [] |}.

(** The temporary path [mktemp_fixed] picks for the suffix [.mp4]. *)
Definition TMP : string := "/tmp/tmpupload.mp4".

(** Diagnostics of a failed conversion. *)
Definition DIAG : string :=
  "ffmpeg version 6.0" ++ Str.nl ++
  "a.mp4: Invalid data found when processing input" ++ Str.nl.

Definition world0 : World := {| fs := ∅; runs := []; archives := [] |}.

(** A workspace that holds the results of an earlier batch and a file of
    another kind. *)
Definition world_used : World :=
  {| fs := <[ "output/old.mp3" := ID3 ]>
           (<[ "output/todos_mp3.zip" := [x50; x4b] ]>
           (<[ "output/notes.txt" := [x68; x69] ]> ∅));
     runs := []; archives := [] |}.

(** * Properties *)

(** ** Strings *)
Module StrFacts.
Import Str.

Lemma append_nil_r (s : string) : s ++ "" = s.
Proof. induction s as [|c s IH]; simpl; [reflexivity | now rewrite IH]. Qed.

Lemma append_assoc (a b c : string) : (a ++ b) ++ c = a ++ (b ++ c).
Proof. induction a as [|x a IH]; simpl; [reflexivity | now rewrite IH]. Qed.

Lemma append_eq_nil (a b : string) : a ++ b = "" -> a = "" /\ b = "".
Proof. destruct a; simpl; [auto | discriminate]. Qed.

Lemma endswith_spec (s suf : string) :
  endswith s suf = true <-> exists pre, s = pre ++ suf.
Proof.
  induction s as [|c s IH]; cbn [endswith].
  - rewrite orb_false_r, String.eqb_eq. split.
    + intros <-. now exists "".
    + intros [pre H]. symmetry in H. apply append_eq_nil in H. now destruct H.
  - rewrite orb_true_iff, String.eqb_eq, IH. split.
    + intros [<- | [pre ->]]; [now exists "" | now exists (String c pre)].
    + intros [[|a pre] H]; simpl in H; [left; congruence |].
      right. exists pre. congruence.
Qed.

Lemma endswith_app (pre suf : string) : endswith (pre ++ suf) suf = true.
Proof. apply endswith_spec. now exists pre. Qed.

(** *** [split] *)

Lemma split_cons (sep : ascii) (s : string) :
  exists w ws, split sep s = w :: ws.
Proof.
  induction s as [|c s (w & ws & IH)]; simpl; [now eauto |].
  destruct (Ascii.eqb c sep); [now eauto |]. rewrite IH. eauto.
Qed.

Lemma split_no_sep (sep : ascii) (s : string) :
  contains sep s = false -> split sep s = [s].
Proof.
  induction s as [|c s IH]; simpl; [reflexivity |].
  rewrite orb_false_iff. intros [Hc Hs].
  rewrite Hc, (IH Hs). reflexivity.
Qed.

Lemma split_fields_no_sep (sep : ascii) (s w : string) :
  In w (split sep s) -> contains sep w = false.
Proof.
  revert w. induction s as [|c s IH]; simpl; intros w.
  - intros [<- | []]. reflexivity.
  - destruct (Ascii.eqb c sep) eqn:E.
    + intros [<- | H]; [reflexivity | now apply IH].
    + destruct (split_cons sep s) as (w0 & ws & Hs). rewrite Hs in *.
      intros [<- | H].
      * simpl. rewrite E. apply IH. now left.
      * apply IH. now right.
Qed.

(** After a separator only the text behind it decides the last field. *)
Lemma split_app_sep (sep : ascii) (a b : string) :
  exists w ws, split sep (a ++ String sep b) = w :: ws /\ ws <> [] /\
               List.last ws "" = last_field (split sep b).
Proof.
  induction a as [|c a (w & ws & IH & Hne & Hl)]; simpl.
  - rewrite Ascii.eqb_refl.
    destruct (split_cons sep b) as (w & ws & Hb).
    exists "", (split sep b). rewrite Hb. split; [reflexivity |].
    split; [discriminate | reflexivity].
  - rewrite IH. destruct (Ascii.eqb c sep).
    + exists "", (w :: ws). split; [reflexivity |]. split; [discriminate |].
      destruct ws; [contradiction | exact Hl].
    + exists (String c w), ws. auto.
Qed.

Lemma last_split_app_sep (sep : ascii) (a b : string) :
  last_field (split sep (a ++ String sep b)) = last_field (split sep b).
Proof.
  destruct (split_app_sep sep a b) as (w & ws & -> & Hne & Hl).
  unfold last_field at 1. destruct ws; [contradiction | exact Hl].
Qed.

Lemma last_split_line (sep : ascii) (a l : string) :
  contains sep l = false ->
  a = "" \/ (exists a', a = a' ++ String sep "") ->
  last_field (split sep (a ++ l)) = l.
Proof.
  intros Hl [-> | [a' ->]]; simpl.
  - now rewrite split_no_sep.
  - rewrite append_assoc. simpl. rewrite last_split_app_sep.
    now rewrite split_no_sep.
Qed.

(** *** [split] and [join] are inverse *)

Lemma concat_cons2 (sep w w' : string) (ws : list string) :
  String.concat sep (w :: w' :: ws) = w ++ sep ++ String.concat sep (w' :: ws).
Proof. reflexivity. Qed.

Lemma concat_split (sep : ascii) (s : string) :
  String.concat (String sep "") (split sep s) = s.
Proof.
  induction s as [|c s IH]; [reflexivity |]. cbn [split].
  destruct (split_cons sep s) as (w & ws & Hs). rewrite Hs in *.
  destruct (Ascii.eqb c sep) eqn:E.
  - apply Ascii.eqb_eq in E. subst c. rewrite concat_cons2, IH. reflexivity.
  - destruct ws as [|w' ws].
    + simpl in *. now rewrite IH.
    + rewrite concat_cons2 in *. rewrite <- IH. reflexivity.
Qed.

Lemma concat_app (sep : ascii) (pre rest : list string) :
  rest <> [] ->
  exists a, closed_by sep a /\
            String.concat (String sep "") (pre ++ rest)%list
            = a ++ String.concat (String sep "") rest.
Proof.
  intros Hne. induction pre as [|w pre (a & Ha & IH)].
  - exists "". split; [now left | reflexivity].
  - exists (w ++ String sep "" ++ a). split.
    + right. destruct Ha as [-> | [a' ->]].
      * exists w. now rewrite append_nil_r.
      * exists (w ++ String sep "" ++ a'). now rewrite !append_assoc.
    + change ((w :: pre) ++ rest)%list with (w :: (pre ++ rest)%list).
      destruct (pre ++ rest)%list as [|x xs] eqn:E.
      * apply app_eq_nil in E. now destruct E.
      * rewrite concat_cons2, IH, !append_assoc. reflexivity.
Qed.

Lemma concat_blank_tail (sep : ascii) (l : string) (k : nat) :
  String.concat (String sep "") (l :: List.repeat "" k) = l ++ replicate k sep.
Proof.
  revert l. induction k as [|k IH]; intros l; simpl List.repeat.
  - simpl. now rewrite append_nil_r.
  - rewrite concat_cons2, IH. reflexivity.
Qed.

Lemma last_filter_nonempty (fields : list string) (l : string) :
  List.last (map Some (List.filter (fun x => negb (String.eqb x "")) fields)) None
  = Some l ->
  exists pre k, fields = (pre ++ l :: List.repeat "" k)%list /\ l <> "".
Proof.
  induction fields as [|x fields IH] using rev_ind; [discriminate |].
  rewrite List.filter_app. cbn [List.filter].
  destruct (String.eqb x "") eqn:E; cbn [negb].
  - apply String.eqb_eq in E. subst x. rewrite app_nil_r. intros H.
    destruct (IH H) as (pre & k & -> & Hl).
    exists pre, (S k). split; [| exact Hl].
    rewrite <- app_assoc. simpl. f_equal. f_equal.
    symmetry. apply repeat_cons.
  - rewrite List.map_app. cbn [List.map]. rewrite List.last_last. intros [= ->].
    exists fields, O. split; [reflexivity |].
    intros ->. discriminate.
Qed.

(** A text with a last non-empty line is that line, between what comes
    before (closed by a line feed) and a run of line feeds. *)
Lemma last_nonempty_line_inv (text l : string) :
  last_nonempty_line text = Some l ->
  exists a k, text = a ++ l ++ replicate k "010" /\ closed_by "010" a /\
              l <> "" /\ contains "010" l = false.
Proof.
  unfold last_nonempty_line. intros H.
  destruct (last_filter_nonempty _ _ H) as (pre & k & Hf & Hl).
  assert (Hin : In l (split "010" text)).
  { rewrite Hf. apply in_or_app. right. now left. }
  destruct (concat_app "010" pre (l :: List.repeat "" k)) as (a & Ha & Hc);
    [discriminate |].
  exists a, k. repeat split; auto.
  - rewrite <- (concat_split "010" text), Hf, Hc, concat_blank_tail. reflexivity.
  - eapply split_fields_no_sep, Hin.
Qed.

(** *** [strip] *)

Lemma isspace_low (c : ascii) : isspace c = true -> (N_of_ascii c < 128)%N.
Proof.
  unfold isspace. rewrite orb_true_iff, !andb_true_iff, !N.leb_le. lia.
Qed.

Lemma space2_high (c d : ascii) :
  space2 c d = true -> (128 <= N_of_ascii c)%N /\ (128 <= N_of_ascii d)%N.
Proof.
  unfold space2, byte_is.
  rewrite andb_true_iff, orb_true_iff, !N.eqb_eq. lia.
Qed.

Lemma space3_high (c d e : ascii) :
  space3 c d e = true ->
  (128 <= N_of_ascii c)%N /\ (128 <= N_of_ascii d)%N /\ (128 <= N_of_ascii e)%N.
Proof.
  unfold space3, byte_is.
  rewrite !orb_true_iff, !andb_true_iff, !orb_true_iff, !andb_true_iff,
    !N.eqb_eq, !N.leb_le. lia.
Qed.

Lemma isspace_not_space2 (c d : ascii) : isspace c = true -> space2 c d = false.
Proof.
  intros H. apply isspace_low in H.
  destruct (space2 c d) eqn:E; [| reflexivity]. apply space2_high in E. lia.
Qed.

Lemma isspace_not_space3 (c d e : ascii) : isspace c = true -> space3 c d e = false.
Proof.
  intros H. apply isspace_low in H.
  destruct (space3 c d e) eqn:E; [| reflexivity]. apply space3_high in E. lia.
Qed.

Lemma space2_not_isspace (c d : ascii) : space2 c d = true -> isspace c = false.
Proof.
  intros H. destruct (isspace c) eqn:E; [| reflexivity].
  now rewrite (isspace_not_space2 c d E) in H.
Qed.

Lemma space3_not_isspace (c d e : ascii) : space3 c d e = true -> isspace c = false.
Proof.
  intros H. destruct (isspace c) eqn:E; [| reflexivity].
  now rewrite (isspace_not_space3 c d e E) in H.
Qed.

Lemma space3_not_space2 (c d e : ascii) : space3 c d e = true -> space2 c d = false.
Proof.
  unfold space3, space2, byte_is. intros H.
  destruct (N_of_ascii c =? 194)%N eqn:E; [| reflexivity].
  apply N.eqb_eq in E. exfalso. revert H.
  rewrite !orb_true_iff, !andb_true_iff, !N.eqb_eq. lia.
Qed.

(** Induction on texts by their length. *)
Lemma string_length_ind (P : string -> Prop) :
  (forall s, (forall t, (String.length t < String.length s)%nat -> P t) -> P s) ->
  forall s, P s.
Proof.
  intros H s. remember (String.length s) as n eqn:E.
  revert s E. induction n as [n IH] using lt_wf_ind.
  intros s ->. apply H. intros t Ht. now apply (IH (String.length t)).
Qed.

(** The three ways [lstrip] takes a character off, and the way it stops. *)
Lemma lstrip_space1 (c : ascii) (s : string) :
  isspace c = true -> lstrip (String c s) = lstrip s.
Proof. intros H. cbn [lstrip]. now rewrite H. Qed.

Lemma lstrip_space2 (c d : ascii) (s : string) :
  space2 c d = true -> lstrip (String c (String d s)) = lstrip s.
Proof.
  intros H. cbn [lstrip]. now rewrite (space2_not_isspace _ _ H), H.
Qed.

Lemma lstrip_space3 (c d e : ascii) (s : string) :
  space3 c d e = true -> lstrip (String c (String d (String e s))) = lstrip s.
Proof.
  intros H. cbn [lstrip].
  now rewrite (space3_not_isspace _ _ _ H), (space3_not_space2 _ _ _ H), H.
Qed.

(** How [lstrip] goes about a text. *)
Lemma lstrip_cases (s : string) :
  s = "" \/
  (exists c s1, s = String c s1 /\ isspace c = true /\ lstrip s = lstrip s1) \/
  (exists c d s2, s = String c (String d s2) /\ space2 c d = true /\
                  lstrip s = lstrip s2) \/
  (exists c d e s3, s = String c (String d (String e s3)) /\ space3 c d e = true /\
                    lstrip s = lstrip s3) \/
  (s <> "" /\ lstrip s = s).
Proof.
  destruct s as [|c s1]; [now left |]. right.
  destruct (isspace c) eqn:E1.
  { left. exists c, s1. auto using lstrip_space1. }
  right. destruct s1 as [|d s2].
  { right. right. split; [discriminate |]. cbn [lstrip]. now rewrite E1. }
  destruct (space2 c d) eqn:E2.
  { left. exists c, d, s2. auto using lstrip_space2. }
  right. destruct s2 as [|e s3].
  { right. split; [discriminate |]. cbn [lstrip]. now rewrite E1, E2. }
  destruct (space3 c d e) eqn:E3.
  { left. exists c, d, e, s3. auto using lstrip_space3. }
  right. split; [discriminate |]. cbn [lstrip]. now rewrite E1, E2, E3.
Qed.

Lemma lstrip_length (s : string) : (String.length (lstrip s) <= String.length s)%nat.
Proof.
  induction s as [s IH] using string_length_ind.
  destruct (lstrip_cases s)
    as [-> | [(c & s1 & -> & _ & ->) | [(c & d & s2 & -> & _ & ->)
       | [(c & d & e & s3 & -> & _ & ->) | [_ ->]]]]].
  - cbn. lia.
  - pose proof (IH s1). cbn [String.length] in *. lia.
  - pose proof (IH s2). cbn [String.length] in *. lia.
  - pose proof (IH s3). cbn [String.length] in *. lia.
  - lia.
Qed.

(** A text that [lstrip] leaves alone does not begin with whitespace. *)
Lemma lstrip_fixed (c : ascii) (s : string) :
  lstrip (String c s) = String c s ->
  isspace c = false /\
  (forall d s2, s = String d s2 -> space2 c d = false) /\
  (forall d e s3, s = String d (String e s3) -> space3 c d e = false).
Proof.
  intros H. assert (Hl : forall t, (String.length t < String.length (String c s))%nat ->
                                   lstrip t <> String c s).
  { intros t Ht E. pose proof (lstrip_length t) as Hle. rewrite E in Hle. lia. }
  split; [| split].
  - destruct (isspace c) eqn:E; [| reflexivity].
    rewrite lstrip_space1 in H by exact E. apply Hl in H; [contradiction | cbn; lia].
  - intros d s2 ->. destruct (space2 c d) eqn:E; [| reflexivity].
    rewrite lstrip_space2 in H by exact E. apply Hl in H; [contradiction | cbn; lia].
  - intros d e s3 ->. destruct (space3 c d e) eqn:E; [| reflexivity].
    rewrite lstrip_space3 in H by exact E. apply Hl in H; [contradiction | cbn; lia].
Qed.

(** A byte below 128 is never the second or third byte of a character. *)
Lemma space2_low_second (c d : ascii) : (N_of_ascii d < 128)%N -> space2 c d = false.
Proof.
  intros H. destruct (space2 c d) eqn:E; [| reflexivity]. apply space2_high in E. lia.
Qed.

Lemma space3_low_second (c d e : ascii) : (N_of_ascii d < 128)%N -> space3 c d e = false.
Proof.
  intros H. destruct (space3 c d e) eqn:E; [| reflexivity]. apply space3_high in E. lia.
Qed.

Lemma space3_low_third (c d e : ascii) : (N_of_ascii e < 128)%N -> space3 c d e = false.
Proof.
  intros H. destruct (space3 c d e) eqn:E; [| reflexivity]. apply space3_high in E. lia.
Qed.

(** What [lstrip] leaves alone it still leaves alone when something that
    begins with a one-byte character is put behind it. *)
Lemma lstrip_fixed_app (t : string) (x : ascii) (u : string) :
  lstrip t = t -> t <> "" -> (N_of_ascii x < 128)%N ->
  lstrip (t ++ String x u) = t ++ String x u.
Proof.
  intros H Hne Hx. destruct t as [|c t]; [contradiction |].
  destruct (lstrip_fixed c t H) as (H1 & H2 & H3).
  destruct t as [|d [|e t]]; cbn [String.append lstrip]; rewrite H1.
  - rewrite (space2_low_second c x Hx).
    destruct u as [|y u]; [reflexivity |]. now rewrite (space3_low_second c x y Hx).
  - rewrite (H2 d "" eq_refl). now rewrite (space3_low_third c d x Hx).
  - rewrite (H2 d (String e t) eq_refl), (H3 d e t eq_refl). reflexivity.
Qed.

Lemma lstrip_fixed_app_line_feeds (t : string) (k : nat) :
  lstrip t = t -> t <> "" ->
  lstrip (t ++ replicate k "010") = t ++ replicate k "010".
Proof.
  intros H Hne. destruct k as [|k].
  - cbn [replicate]. now rewrite append_nil_r.
  - cbn [replicate]. apply lstrip_fixed_app; auto. cbn. lia.
Qed.

Lemma lstrip_line_feeds (k : nat) : lstrip (replicate k "010") = "".
Proof.
  induction k as [|k IH]; [reflexivity |].
  cbn [replicate]. now rewrite lstrip_space1.
Qed.

Lemma lstrip_idem (s : string) : lstrip (lstrip s) = lstrip s.
Proof.
  induction s as [s IH] using string_length_ind.
  destruct (lstrip_cases s)
    as [-> | [(c & s1 & -> & _ & ->) | [(c & d & s2 & -> & _ & ->)
       | [(c & d & e & s3 & -> & _ & ->) | [_ H]]]]].
  - reflexivity.
  - apply IH. cbn. lia.
  - apply IH. cbn. lia.
  - apply IH. cbn. lia.
  - now rewrite !H.
Qed.

Lemma closed_by_tail (sep c : ascii) (a : string) :
  closed_by sep (String c a) -> closed_by sep a.
Proof.
  intros [H | [a' H]]; [discriminate |].
  destruct a' as [|x a']; simpl in H.
  - left. congruence.
  - right. exists a'. congruence.
Qed.

Lemma closed_by_one (c : ascii) : closed_by "010" (String c "") -> c = "010"%char.
Proof.
  intros [H | [[|x a'] H]]; [discriminate | | ]; simpl in H.
  - congruence.
  - injection H as _ H. now destruct a'.
Qed.

Lemma closed_by_two (c d : ascii) :
  closed_by "010" (String c (String d "")) -> d = "010"%char.
Proof. intros H. apply closed_by_tail in H. now apply closed_by_one. Qed.

(** Stripping what is closed by a line feed and followed by a text that
    [lstrip] leaves alone: what remains is again closed by a line feed,
    and the text behind it is whole. *)
Lemma lstrip_app (a rest : string) :
  closed_by "010" a -> lstrip rest = rest -> rest <> "" ->
  exists x, closed_by "010" x /\ lstrip (a ++ rest) = x ++ rest.
Proof.
  intros Ha Hrest Hne. revert Ha.
  induction a as [a IH] using string_length_ind. intros Ha.
  destruct a as [|c a1].
  { exists "". split; [now left | exact Hrest]. }
  destruct (isspace c) eqn:E1.
  { change (String c a1 ++ rest) with (String c (a1 ++ rest)).
    rewrite lstrip_space1 by exact E1.
    apply IH; [cbn; lia | eapply closed_by_tail, Ha]. }
  destruct a1 as [|d a2].
  { apply closed_by_one in Ha. subst c. discriminate E1. }
  destruct (space2 c d) eqn:E2.
  { change (String c (String d a2) ++ rest) with (String c (String d (a2 ++ rest))).
    rewrite lstrip_space2 by exact E2.
    apply IH; [cbn; lia | eapply closed_by_tail, closed_by_tail, Ha]. }
  destruct a2 as [|e a3].
  { apply closed_by_two in Ha. subst d.
    exists (String c (String "010" "")). split; [right; now exists (String c "") |].
    destruct rest as [|y rest]; [contradiction |].
    cbn [String.append lstrip]. rewrite E1, E2.
    rewrite space3_low_second; [reflexivity | cbn; lia]. }
  destruct (space3 c d e) eqn:E3.
  { change (String c (String d (String e a3)) ++ rest)
      with (String c (String d (String e (a3 ++ rest)))).
    rewrite lstrip_space3 by exact E3.
    apply IH; [cbn; lia | eapply closed_by_tail, closed_by_tail, closed_by_tail, Ha]. }
  exists (String c (String d (String e a3))). split; [exact Ha |].
  cbn [String.append lstrip]. now rewrite E1, E2, E3.
Qed.

(** Whether a text is all whitespace is not changed by line feeds put
    behind it. *)
Lemma lstrip_app_line_feeds_empty (s : string) (k : nat) :
  String.eqb (lstrip (s ++ replicate k "010")) "" = String.eqb (lstrip s) "".
Proof.
  induction s as [s IH] using string_length_ind.
  destruct (lstrip_cases s)
    as [-> | [(c & s1 & -> & E & ->) | [(c & d & s2 & -> & E & ->)
       | [(c & d & e & s3 & -> & E & ->) | [Hne H]]]]].
  - cbn [String.append]. now rewrite lstrip_line_feeds.
  - change (String c s1 ++ replicate k "010") with (String c (s1 ++ replicate k "010")).
    rewrite lstrip_space1 by exact E. apply IH. cbn. lia.
  - change (String c (String d s2) ++ replicate k "010")
      with (String c (String d (s2 ++ replicate k "010"))).
    rewrite lstrip_space2 by exact E. apply IH. cbn. lia.
  - change (String c (String d (String e s3)) ++ replicate k "010")
      with (String c (String d (String e (s3 ++ replicate k "010")))).
    rewrite lstrip_space3 by exact E. apply IH. cbn. lia.
  - rewrite lstrip_fixed_app_line_feeds, H by assumption.
    destruct s; [contradiction | reflexivity].
Qed.

Lemma rstrip_line_feeds (k : nat) : rstrip (replicate k "010") = "".
Proof.
  destruct k as [|k]; [reflexivity |].
  cbn [replicate rstrip].
  change (String "010" (replicate k "010")) with (replicate (S k) "010").
  now rewrite lstrip_line_feeds.
Qed.

Lemma rstrip_app_line_feeds (s : string) (k : nat) :
  rstrip (s ++ replicate k "010") = rstrip s.
Proof.
  induction s as [|c s IH].
  - apply rstrip_line_feeds.
  - change (String c s ++ replicate k "010") with (String c (s ++ replicate k "010")).
    cbn [rstrip].
    change (String c (s ++ replicate k "010")) with (String c s ++ replicate k "010").
    now rewrite lstrip_app_line_feeds_empty, IH.
Qed.

(** A trimmed, non-empty text behind a text closed by a line feed: nothing
    is taken off the end. *)
Lemma rstrip_app_fixed (x l : string) :
  closed_by "010" x -> lstrip l = l -> rstrip l = l -> l <> "" ->
  rstrip (x ++ l) = x ++ l.
Proof.
  intros Hx Hlead Htrail Hne. induction x as [|c x IH]; [exact Htrail |].
  destruct (lstrip_app (String c x) l Hx Hlead Hne) as (y & _ & Hy).
  change (String c x ++ l) with (String c (x ++ l)) in *.
  cbn [rstrip]. rewrite Hy, IH by (eapply closed_by_tail, Hx).
  destruct (y ++ l) as [|b r] eqn:E; [| reflexivity].
  apply append_eq_nil in E. now destruct E.
Qed.

(** The error text the worker extracts, when the diagnostics have a last
    non-empty line that is trimmed: that line. *)
Lemma last_line_of_strip (text l : string) :
  last_nonempty_line text = Some l -> trimmed l ->
  last_field (split "010" (strip text)) = l.
Proof.
  intros H [Hlead Htrail].
  destruct (last_nonempty_line_inv _ _ H) as (a & k & -> & Ha & Hne & Hnl).
  unfold strip.
  destruct (lstrip_app a (l ++ replicate k "010") Ha) as (x & Hx & ->).
  - now apply lstrip_fixed_app_line_feeds.
  - intros E. apply append_eq_nil in E. now destruct E.
  - rewrite <- append_assoc, rstrip_app_line_feeds.
    rewrite rstrip_app_fixed by assumption.
    now apply last_split_line.
Qed.

End StrFacts.

(** ** Paths and patterns *)
Module PathFacts.
Import Str StrFacts.

Lemma strip_prefix_spec (pre s r : string) :
  strip_prefix pre s = Some r <-> s = pre ++ r.
Proof.
  revert s. induction pre as [|a pre IH]; intros s; simpl.
  - split; congruence.
  - destruct s as [|b s]; [split; discriminate |].
    destruct (Ascii.eqb a b) eqn:E.
    + apply Ascii.eqb_eq in E. subst b. rewrite IH. split; congruence.
    + apply Ascii.eqb_neq in E. split; [discriminate | congruence].
Qed.

Lemma child_of_spec (dir p n : string) :
  child_of dir p = Some n <->
  p = path_join dir n /\ n <> "" /\ contains "/" n = false.
Proof.
  unfold child_of, path_join. split.
  - destruct (strip_prefix (dir ++ "/") p) as [r|] eqn:E; [| discriminate].
    apply strip_prefix_spec in E.
    destruct (String.eqb r "") eqn:E1; [discriminate |].
    destruct (contains "/" r) eqn:E2; [discriminate |].
    simpl. intros [= <-]. apply String.eqb_neq in E1.
    now rewrite E, append_assoc.
  - intros (-> & Hne & Hc).
    assert (E : strip_prefix (dir ++ "/") (dir ++ "/" ++ n) = Some n).
    { apply strip_prefix_spec. now rewrite append_assoc. }
    rewrite E, Hc. apply String.eqb_neq in Hne. now rewrite Hne.
Qed.

Lemma fnmatch_literal (pat : string) :
  is_literal pat = true -> forall t, fnmatch pat t = String.eqb t pat.
Proof.
  induction pat as [|c pat IH]; intros Hlit t.
  - reflexivity.
  - cbn [is_literal] in Hlit.
    apply andb_true_iff in Hlit as [Hlit Hp].
    apply andb_true_iff in Hlit as [Hs Hq].
    apply negb_true_iff in Hs, Hq.
    cbn [fnmatch]. rewrite Hs. destruct t as [|a t]; [reflexivity |].
    rewrite Hq, (IH Hp). reflexivity.
Qed.

(** A star before a literal matches the names that end with it. *)
Lemma fnmatch_star_literal (pat : string) :
  is_literal pat = true ->
  forall s, fnmatch (String "*" pat) s = endswith s pat.
Proof.
  intros Hlit s. cbn [fnmatch]. rewrite Ascii.eqb_refl.
  induction s as [|a s IH]; cbn [endswith].
  - now rewrite (fnmatch_literal _ Hlit).
  - now rewrite (fnmatch_literal _ Hlit), IH.
Qed.

Lemma fnmatch_mp3 (n : string) : fnmatch "*.mp3" n = endswith n ".mp3".
Proof. now apply fnmatch_star_literal. Qed.

Lemma contains_app (c : ascii) (a b : string) :
  contains c (a ++ b) = contains c a || contains c b.
Proof.
  induction a as [|x a IH]; simpl; [reflexivity |].
  now rewrite IH, orb_assoc.
Qed.

Lemma contains_substring0 (c : ascii) (n : nat) (s : string) :
  contains c s = false -> contains c (String.substring 0 n s) = false.
Proof.
  revert n. induction s as [|a s IH]; intros [|n]; simpl; auto.
  rewrite !orb_false_iff. intros [-> H]. auto.
Qed.

Lemma last_In (l : list string) (d : string) : l <> [] -> In (List.last l d) l.
Proof.
  induction l as [|x [|y l] IH]; intros H; [contradiction | now left |].
  right. apply IH. discriminate.
Qed.

Lemma path_name_no_slash (p : string) : contains "/" (path_name p) = false.
Proof.
  unfold path_name, last_field.
  apply (split_fields_no_sep "/" p), last_In.
  destruct (split_cons "/" p) as (w & ws & ->). discriminate.
Qed.

Lemma path_stem_no_slash (p : string) : contains "/" (path_stem p) = false.
Proof.
  unfold path_stem, take.
  destruct (_ && _); [apply contains_substring0 |]; apply path_name_no_slash.
Qed.

(** The name of an entry of a directory is what was joined to it. *)
Lemma path_name_join (dir n : string) :
  contains "/" n = false -> path_name (path_join dir n) = n.
Proof.
  intros H. unfold path_name, path_join.
  rewrite <- append_assoc. apply last_split_line; [exact H |].
  right. now exists dir.
Qed.

Lemma mp3_name_no_slash (u : UploadedFile) : contains "/" (mp3_name u) = false.
Proof.
  unfold mp3_name. rewrite contains_app, path_stem_no_slash. reflexivity.
Qed.

Lemma mp3_name_nonempty (u : UploadedFile) : mp3_name u <> "".
Proof.
  unfold mp3_name. intros H. apply append_eq_nil in H. now destruct H.
Qed.

Lemma output_path_child (u : UploadedFile) :
  child_of OUTPUT_DIR (output_path u) = Some (mp3_name u).
Proof.
  apply child_of_spec. split; [reflexivity |].
  split; [apply mp3_name_nonempty | apply mp3_name_no_slash].
Qed.

Lemma output_path_name (u : UploadedFile) : path_name (output_path u) = mp3_name u.
Proof. apply path_name_join, mp3_name_no_slash. Qed.

(** Every path the conversion loop writes to is one the clearing step
    of the next run removes. *)
Lemma output_path_stale (u : UploadedFile) : stale_artifact (output_path u) = true.
Proof.
  unfold stale_artifact. rewrite output_path_child, fnmatch_mp3.
  unfold mp3_name. now rewrite endswith_app.
Qed.

End PathFacts.

(** ** The clearing step *)
Section Clearing.

Lemma foldl_delete_lookup (l : list string) (f : gmap string bytes) (p : string) (d : bytes) :
  foldl (fun g old => delete old g) f l !! p = Some d <-> (p ∉ l) /\ f !! p = Some d.
Proof.
  revert f. induction l as [|x l IH]; intros f; simpl.
  - split; [intros H; split; [apply not_elem_of_nil | exact H] | now intros [_ H]].
  - rewrite IH, not_elem_of_cons, lookup_delete_Some. intuition congruence.
Qed.

Lemma elem_of_glob (dir pattern : string) (f : gmap string bytes) (p : string) :
  (p ∈ glob dir pattern f) <->
  is_Some (f !! p) /\ exists n, child_of dir p = Some n /\ fnmatch pattern n = true.
Proof.
  unfold glob. rewrite list_elem_of_In, filter_In, in_map_iff. split.
  - intros [[[q d] [<- Hin]] Hm]. simpl in *.
    apply list_elem_of_In, elem_of_map_to_list in Hin. split; [eauto |].
    destruct (child_of dir q) as [n|]; [eauto | discriminate].
  - intros [[d Hd] (n & Hn & Hm)]. split.
    + exists (p, d). split; [reflexivity |].
      now apply list_elem_of_In, elem_of_map_to_list.
    + now rewrite Hn.
Qed.

Lemma zip_path_child : child_of OUTPUT_DIR (path_join OUTPUT_DIR ZIP_NAME) = Some ZIP_NAME.
Proof. reflexivity. Qed.

Lemma stale_artifact_false (p : string) :
  stale_artifact p = false <->
  (forall n, child_of OUTPUT_DIR p = Some n -> fnmatch "*.mp3" n = false) /\
  p <> path_join OUTPUT_DIR ZIP_NAME.
Proof.
  unfold stale_artifact. split.
  - intros H. split.
    + intros n Hn. rewrite Hn in H. now apply orb_false_iff in H.
    + intros ->. rewrite zip_path_child in H. discriminate.
  - intros [H1 H2]. destruct (child_of OUTPUT_DIR p) as [n|] eqn:E; [| reflexivity].
    rewrite (H1 n eq_refl). simpl. apply String.eqb_neq. intros ->.
    apply PathFacts.child_of_spec in E. now destruct E.
Qed.

Lemma clear_outputs_eq (w : World) :
  clear_outputs w = (tt, with_fs w (cleared (fs w))).
Proof.
  unfold clear_outputs, cleared, bind, get_fs, put_fs, path_exists, unlink, ret, get_fs.
  simpl. case_bool_decide as Hex; simpl; [reflexivity |].
  rewrite delete_id; [reflexivity |].
  now apply eq_None_not_Some.
Qed.

Lemma cleared_keep_others (f : gmap string bytes) : cleared f = keep_others f.
Proof.
  apply map_eq. intros p. apply option_eq. intros d.
  unfold cleared, keep_others.
  rewrite lookup_delete_Some, foldl_delete_lookup, map_lookup_filter_Some. simpl.
  rewrite stale_artifact_false, elem_of_glob. split.
  - intros (Hz & Hg & Hd). split; [exact Hd |]. split; [| congruence].
    intros n Hn. destruct (fnmatch "*.mp3" n) eqn:E; [| reflexivity].
    exfalso. apply Hg. eauto.
  - intros (Hd & Hn & Hz). split; [congruence |]. split; [| exact Hd].
    intros [_ (n & Hc & Hm)]. rewrite (Hn n Hc) in Hm. discriminate.
Qed.

Lemma keep_others_idemp (f : gmap string bytes) : keep_others (keep_others f) = keep_others f.
Proof.
  apply map_eq. intros p. apply option_eq. intros d.
  unfold keep_others. rewrite !map_lookup_filter_Some. tauto.
Qed.

End Clearing.

(** ** Validation *)

(** C4. [validate_file] looks at the name and the size only and applies
    its rules in order, the first that matches deciding: a name whose
    lower-case form does not end in [.mp4] is rejected with a reason that
    quotes the name; otherwise size 0 is rejected as empty; otherwise a
    size above 500 * 1024 * 1024 is rejected as too large; otherwise the
    file is accepted with the empty reason. *)
Theorem validate_file_rules (u : UploadedFile) :
  let mp4 := exists pre, Str.lower (name u) = pre ++ ".mp4" in
  (~ mp4 -> validate_file u = (false, "'" ++ name u ++ "' não é um arquivo .mp4")) /\
  (mp4 -> size u = 0 -> validate_file u = (false, "'" ++ name u ++ "' está vazio")) /\
  (mp4 -> size u <> 0 -> size u > 500 * 1024 * 1024 ->
   validate_file u = (false, "'" ++ name u ++ "' excede 500 MB")) /\
  (mp4 -> size u <> 0 -> size u <= 500 * 1024 * 1024 -> validate_file u = (true, "")) /\
  (forall u', name u' = name u -> size u' = size u -> validate_file u' = validate_file u).
Proof.
  intros mp4. unfold validate_file.
  destruct (Str.endswith (Str.lower (name u)) ".mp4") eqn:E; cbn [negb].
  - assert (Hm : mp4) by now apply StrFacts.endswith_spec.
    split; [| split; [| split; [| split]]].
    + intros Hn. contradiction.
    + intros _ Hz. rewrite Hz. reflexivity.
    + intros _ Hz Hbig. apply Z.eqb_neq in Hz. rewrite Hz.
      unfold MAX_SIZE. destruct (Z.gtb_spec (size u) (500 * 1024 * 1024)); [reflexivity | lia].
    + intros _ Hz Hsmall. apply Z.eqb_neq in Hz. rewrite Hz.
      unfold MAX_SIZE. destruct (Z.gtb_spec (size u) (500 * 1024 * 1024)); [lia | reflexivity].
    + intros u' Hu Hs. now rewrite Hu, Hs, E.
  - assert (Hm : ~ mp4).
    { intros H. apply StrFacts.endswith_spec in H. congruence. }
    split; [| split; [| split; [| split]]]; try (intros H; contradiction).
    + intros Hn. reflexivity.
    + intros u' Hu Hs. now rewrite Hu, E.
Qed.

Lemma validate_file_rules_witness :
  validate_file {| name := "notes.txt"; size := 12; getbuffer := [] |}
  = (false, "'notes.txt' não é um arquivo .mp4") /\
  validate_file {| name := "b.mp4"; size := 0; getbuffer := [] |}
  = (false, "'b.mp4' está vazio") /\
  validate_file {| name := "c.mp4"; size := 600 * 1024 * 1024; getbuffer := [] |}
  = (false, "'c.mp4' excede 500 MB") /\
  validate_file {| name := "Clip.MP4"; size := 500 * 1024 * 1024; getbuffer := [] |}
  = (true, "").
Proof.
  split; [| split; [| split]].
  - refine (proj1 (validate_file_rules {| name := "notes.txt"; size := 12; getbuffer := [] |}) _).
    intros H. apply StrFacts.endswith_spec in H. discriminate H.
  - refine (proj1 (proj2 (validate_file_rules {| name := "b.mp4"; size := 0; getbuffer := [] |})) _ _).
    + now exists "b".
    + reflexivity.
  - refine (proj1 (proj2 (proj2 (validate_file_rules
              {| name := "c.mp4"; size := 600 * 1024 * 1024; getbuffer := [] |}))) _ _ _).
    + now exists "c".
    + discriminate.
    + reflexivity.
  - refine (proj1 (proj2 (proj2 (proj2 (validate_file_rules
              {| name := "Clip.MP4"; size := 500 * 1024 * 1024; getbuffer := [] |})))) _ _ _).
    + now exists "clip".
    + discriminate.
    + discriminate.
Defined.

(** ** The capability probe and the conversion worker *)
Section Worker.

Context (process : list string -> Z -> gmap string bytes ->
                   py_result CompletedProcess * gmap string bytes).
Context (mktemp : gmap string bytes -> string -> string).

(** C6, as the code has it. [check_ffmpeg] launches [ffmpeg -version]
    once with a timeout of 10 seconds.  It returns [True] exactly when
    the process completes with exit status 0; a non-zero status, a
    missing binary and a timeout each give [False]; any other failure
    to launch (a permission error, another OS error) is not caught and
    leaves the function as the exception it is. *)
Theorem check_ffmpeg_outcomes (w : World) :
  let out := process ["ffmpeg"; "-version"] 10 (fs w) in
  let r := (check_ffmpeg process w).1 in
  (r = Return true <-> exists cp, out.1 = Return cp /\ returncode cp = 0) /\
  (forall cp, out.1 = Return cp -> returncode cp <> 0 -> r = Return false) /\
  (forall m, out.1 = Raise (FileNotFoundError m) -> r = Return false) /\
  (forall m, out.1 = Raise (TimeoutExpired m) -> r = Return false) /\
  (forall e, out.1 = Raise e ->
             (forall m, e <> FileNotFoundError m) -> (forall m, e <> TimeoutExpired m) ->
             r = Raise e) /\
  (check_ffmpeg process w).2 = after_run w ["ffmpeg"; "-version"] 10 out.2.
Proof.
  unfold check_ffmpeg, bind, subprocess_run, ret, after_run.
  destruct (process ["ffmpeg"; "-version"] 10 (fs w)) as [[cp | e] f]; simpl.
  - split; [| split; [| repeat split; intros; discriminate]].
    + split.
      * intros [= H]. exists cp. split; [reflexivity | now apply Z.eqb_eq].
      * intros (cp' & [= <-] & H). now rewrite H.
    + intros cp' [= <-] H. apply Z.eqb_neq in H. now rewrite H.
  - destruct e as [m | m | m | m | m | m]; cbn;
      (split; [split; [discriminate | now intros (? & ? & _)] |]);
      (split; [intros; discriminate |]);
      (split; [intros; congruence |]);
      (split; [intros; congruence |]);
      (split; [| reflexivity]);
      intros e' [= <-] Hnf Hnt; try reflexivity.
    + now destruct (Hnf m).
    + now destruct (Hnt m).
Qed.

Lemma convert_world (input_path output_path : string) (w : World) :
  (convert_mp4_to_mp3 process input_path output_path w).2
  = after_run w (ffmpeg_argv input_path output_path) 300
              (process (ffmpeg_argv input_path output_path) 300 (fs w)).2.
Proof.
  unfold convert_mp4_to_mp3, bind, subprocess_run, after_run.
  destruct (process _ 300 (fs w)) as [[cp | e] f]; simpl.
  - destruct (returncode cp =? 0); simpl; [| reflexivity].
    unfold path_exists, st_size, bind, get_fs, ret. simpl.
    destruct (negb _ || _); reflexivity.
  - destruct e; reflexivity.
Qed.

Lemma convert_item_unfold (u : UploadedFile) (c e : list string) (w : World) :
  convert_item process mktemp u (c, e) w =
  let tmp := mktemp (fs w) ".mp4" in
  let rw := convert_mp4_to_mp3 process tmp (output_path u)
              (with_fs w (<[tmp := getbuffer u]> (fs w))) in
  (if success rw.1 then ((c ++ [output_path u])%list, e)
   else (c, (e ++ [error_line (name u) (error_of rw.1)])%list),
   with_fs rw.2 (delete tmp (fs rw.2))).
Proof.
  unfold convert_item, write_temp, bind, get_fs, put_fs, unlink, ret, with_fs. simpl.
  destruct (convert_mp4_to_mp3 _ _ _ _) as [r w2]. simpl.
  destruct (success r); reflexivity.
Qed.

(** C5, as the code has it. When the process launched for an item runs
    into the 300-second limit, the item is recorded under the failures
    as its name followed by the timeout message and is not added to the
    successes; the worker removes nothing but the temporary copy, so the
    files are those the process left, a partial output included. *)
Theorem convert_item_timeout (u : UploadedFile) (c e : list string) (w : World)
        (m : string) (f : gmap string bytes) :
  let tmp := mktemp (fs w) ".mp4" in
  process (ffmpeg_argv tmp (output_path u)) 300 (<[tmp := getbuffer u]> (fs w))
  = (Raise (TimeoutExpired m), f) ->
  convert_item process mktemp u (c, e) w =
  ((c, (e ++ [error_line (name u) MSG_TIMEOUT])%list),
   {| fs := delete tmp f;
      runs := (runs w ++ [(ffmpeg_argv tmp (output_path u), 300)])%list;
      archives := archives w |}).
Proof.
  intros tmp H. rewrite convert_item_unfold. fold tmp. cbv zeta.
  unfold convert_mp4_to_mp3, bind, subprocess_run, with_fs. simpl.
  rewrite H. reflexivity.
Qed.

(** C7, as the code has it. When the process exits with a non-zero
    status the outcome is a failure whose message is the last line of
    the diagnostics after the whole text has been stripped of leading
    and trailing whitespace; this is the last non-empty line of the
    diagnostics whenever that line neither begins nor ends with
    whitespace. *)
Theorem convert_nonzero_exit (input_path output_path : string) (w : World)
        (cp : CompletedProcess) (f : gmap string bytes) :
  process (ffmpeg_argv input_path output_path) 300 (fs w) = (Return cp, f) ->
  returncode cp <> 0 ->
  let r := (convert_mp4_to_mp3 process input_path output_path w).1 in
  r = conv_fail (Str.last_field (Str.split "010" (Str.strip (stderr cp)))) /\
  (forall l, last_nonempty_line (stderr cp) = Some l -> trimmed l -> r = conv_fail l).
Proof.
  intros H Hrc r.
  assert (Hr : r = conv_fail (Str.last_field (Str.split "010" (Str.strip (stderr cp))))).
  { unfold r, convert_mp4_to_mp3, bind, subprocess_run. rewrite H. simpl.
    apply Z.eqb_neq in Hrc. now rewrite Hrc. }
  split; [exact Hr |].
  intros l Hl Ht. rewrite Hr. f_equal. now apply StrFacts.last_line_of_strip.
Qed.

(** C9. Whatever the process does (success, non-zero exit, missing or
    empty output, timeout, failure to launch), one turn of the loop
    hands it the temporary copy of the upload and ends with that copy
    deleted: the files after the turn are those the process left, minus
    the temporary path. *)
Theorem convert_item_removes_temp (u : UploadedFile) (acc : list string * list string)
        (w : World) :
  let tmp := mktemp (fs w) ".mp4" in
  let w' := (convert_item process mktemp u acc w).2 in
  fs w' !! tmp = None /\
  fs w' = delete tmp (process (ffmpeg_argv tmp (output_path u)) 300
                              (<[tmp := getbuffer u]> (fs w))).2.
Proof.
  intros tmp w'. destruct acc as [c e].
  unfold w'. rewrite convert_item_unfold. fold tmp. cbv zeta.
  cbn [snd with_fs fs]. rewrite convert_world. cbn [after_run fs with_fs].
  split; [apply lookup_delete_eq | reflexivity].
Qed.

End Worker.

(** ** The batch *)
Section Batch.

Context (process : list string -> Z -> gmap string bytes ->
                   py_result CompletedProcess * gmap string bytes).
Context (mktemp : gmap string bytes -> string -> string).
Context (zip_encode : list (string * bytes) -> bytes).

(** One turn of the loop: one outcome, one process. *)
Lemma convert_item_outcome (u : UploadedFile) (c e : list string) (w : World) :
  exists o : option string,
    (convert_item process mktemp u (c, e) w).1
    = ((c ++ option_list (success_of (u, o)))%list,
       (e ++ option_list (failure_of (u, o)))%list) /\
    runs (convert_item process mktemp u (c, e) w).2
    = (runs w ++ [run_of (u, mktemp (fs w) ".mp4")])%list /\
    archives (convert_item process mktemp u (c, e) w).2 = archives w.
Proof.
  rewrite convert_item_unfold. cbv zeta. cbn [fst snd].
  rewrite convert_world. cbn [with_fs after_run runs archives fs].
  destruct (success _) eqn:E.
  - exists None. cbn. now rewrite app_nil_r.
  - eexists (Some _). cbn. rewrite app_nil_r. split; [reflexivity | split; reflexivity].
Qed.

Lemma convert_loop_outcomes (valid_files : list UploadedFile) (c e : list string)
      (w : World) :
  let res := convert_loop process mktemp valid_files (c, e) w in
  exists (outcomes : list (option string)) (tmps : list string),
    length outcomes = length valid_files /\
    length tmps = length valid_files /\
    res.1.1 = (c ++ omap success_of (zip valid_files outcomes))%list /\
    res.1.2 = (e ++ omap failure_of (zip valid_files outcomes))%list /\
    runs res.2 = (runs w ++ map run_of (zip valid_files tmps))%list /\
    archives res.2 = archives w.
Proof.
  cbv zeta. revert c e w.
  induction valid_files as [|u rest IH]; intros c e w.
  - exists [], []. cbn. now rewrite !app_nil_r.
  - cbn [convert_loop]. unfold bind.
    destruct (convert_item_outcome u c e w) as (o & Hacc & Hruns & Harch).
    destruct (convert_item process mktemp u (c, e) w) as [[c' e'] w'].
    cbn [fst snd] in Hacc, Hruns, Harch. injection Hacc as -> ->.
    destruct (IH (c ++ option_list (success_of (u, o)))%list
                 (e ++ option_list (failure_of (u, o)))%list w')
      as (os & ts & Hlo & Hlt & Hc & He & Hr & Ha).
    exists (o :: os), (mktemp (fs w) ".mp4" :: ts).
    rewrite Hc, He, Hr, Ha, Hruns, Harch, <- !app_assoc. cbn [length].
    repeat split; try congruence.
    + f_equal. cbn. now destruct o.
    + f_equal. cbn. now destruct o.
Qed.

(** C1. The conversion loop is a total function of the accepted queue:
    it ends with one outcome per accepted item, in upload order.  The
    successes are the output paths of the items that succeeded and the
    failures are the lines (name, colon, message) of those that failed,
    both in upload order, so every item is in exactly one of the two; a
    failed item does not stop the loop; and exactly one process was
    launched per item, in upload order, for that item's output path. *)
Theorem convert_loop_complete (valid_files : list UploadedFile) (w : World) :
  let res := convert_loop process mktemp valid_files ([], []) w in
  exists (outcomes : list (option string)) (tmps : list string),
    length outcomes = length valid_files /\
    length tmps = length valid_files /\
    res.1.1 = omap success_of (zip valid_files outcomes) /\
    res.1.2 = omap failure_of (zip valid_files outcomes) /\
    runs res.2 = (runs w ++ map run_of (zip valid_files tmps))%list.
Proof.
  cbv zeta.
  destruct (convert_loop_outcomes valid_files [] [] w)
    as (os & ts & Hlo & Hlt & Hc & He & Hr & _).
  exists os, ts. auto.
Qed.

Lemma run_batch_unfold (valid_files : list UploadedFile) (w : World) :
  run_batch process mktemp zip_encode valid_files w =
  let res := convert_loop process mktemp valid_files ([], [])
                          (with_fs w (cleared (fs w))) in
  deliver zip_encode res.1.1 res.1.2 res.2.
Proof.
  unfold run_batch, bind. rewrite clear_outputs_eq.
  destruct (convert_loop _ _ _ _ _) as [acc w']. reflexivity.
Qed.

Lemma stale_output_name (n : string) :
  Str.contains "/" n = false -> Str.endswith n ".mp3" = true ->
  stale_artifact (path_join OUTPUT_DIR n) = true.
Proof.
  intros Hc He. unfold stale_artifact.
  assert (Hn : child_of OUTPUT_DIR (path_join OUTPUT_DIR n) = Some n).
  { apply PathFacts.child_of_spec. split; [reflexivity |]. split; [| exact Hc].
    intros ->. discriminate. }
  now rewrite Hn, PathFacts.fnmatch_mp3, He.
Qed.

(** C2. The clearing step is the first thing the button's body does.
    After it the workspace holds no entry of the output directory whose
    name ends in [.mp3] and no archive; every path the loop can write an
    output to is such an entry; and the whole batch runs exactly as it
    would on a workspace from which these files had been taken away
    beforehand, so nothing a previous batch left there can show. *)
Theorem clear_outputs_removes_all (valid_files : list UploadedFile) (w : World) :
  let w' := (clear_outputs w).2 in
  (forall n, Str.contains "/" n = false -> Str.endswith n ".mp3" = true ->
             fs w' !! path_join OUTPUT_DIR n = None) /\
  fs w' !! path_join OUTPUT_DIR ZIP_NAME = None /\
  (forall u, exists n, output_path u = path_join OUTPUT_DIR n /\
                       Str.contains "/" n = false /\ Str.endswith n ".mp3" = true) /\
  run_batch process mktemp zip_encode valid_files w
  = run_batch process mktemp zip_encode valid_files (with_fs w (keep_others (fs w))).
Proof.
  cbv zeta. rewrite clear_outputs_eq. cbn [snd with_fs fs].
  split; [| split; [| split]].
  - intros n Hc He. rewrite cleared_keep_others.
    apply map_lookup_filter_None. right. intros d _ H. cbn [fst] in H.
    rewrite stale_output_name in H by assumption. discriminate.
  - apply lookup_delete_eq.
  - intros u. exists (mp3_name u). split; [reflexivity |].
    split; [apply PathFacts.mp3_name_no_slash |].
    unfold mp3_name. apply StrFacts.endswith_app.
  - rewrite !run_batch_unfold. cbn [with_fs fs].
    rewrite !cleared_keep_others, keep_others_idemp. reflexivity.
Qed.

(** C10. The clearing step touches nothing else: a path that is neither
    an entry of the output directory with a name ending in [.mp3] nor
    the archive [todos_mp3.zip] holds after the step what it held
    before; the step creates no file and changes no content; and it
    launches no process and writes no archive. *)
Theorem clear_outputs_frame (w : World) :
  let w' := (clear_outputs w).2 in
  (forall p,
      (forall n, p = path_join OUTPUT_DIR n -> Str.contains "/" n = false ->
                 Str.endswith n ".mp3" = false) ->
      p <> path_join OUTPUT_DIR ZIP_NAME ->
      fs w' !! p = fs w !! p) /\
  (forall p d, fs w' !! p = Some d -> fs w !! p = Some d) /\
  runs w' = runs w /\ archives w' = archives w.
Proof.
  cbv zeta. rewrite clear_outputs_eq. cbn [snd with_fs fs runs archives].
  rewrite cleared_keep_others. unfold keep_others.
  split; [| split; [| split; reflexivity]].
  - intros p Hmp3 Hzip. apply option_eq. intros d.
    rewrite map_lookup_filter_Some. cbn [fst].
    split; [now intros [H _] | intros H; split; [exact H |]].
    apply stale_artifact_false. split; [| exact Hzip].
    intros n Hn. apply PathFacts.child_of_spec in Hn as (-> & _ & Hc).
    rewrite PathFacts.fnmatch_mp3. now apply Hmp3.
  - intros p d H. now apply map_lookup_filter_Some in H as [H _].
Qed.

(** C8, as the code has it. With an empty accepted queue no batch is
    run, pressed button or not: the page shows no results (no successes,
    no failures, no archive), and the world is left as it was, so no
    process is launched, the archive writer is not called, and the
    workspace is not cleared. *)
Theorem page_empty_queue (uploaded_files : list UploadedFile) (clicked : bool)
        (w : World) :
  (validate_all uploaded_files).1 = [] ->
  page process mktemp zip_encode uploaded_files clicked w
  = (Return (match uploaded_files with
             | [] => PageUploadPrompt
             | _ :: _ => PageQueue [] (validate_all uploaded_files).2
             end), w).
Proof.
  intros H. unfold page. destruct uploaded_files as [|u rest]; [reflexivity |].
  destruct (validate_all (u :: rest)) as [valid invalid].
  cbn [fst] in H. subst valid. reflexivity.
Qed.

End Batch.

(** ** Delivery and the archive *)
Section Bundling.

Context (process : list string -> Z -> gmap string bytes ->
                   py_result CompletedProcess * gmap string bytes).
Context (mktemp : gmap string bytes -> string -> string).
Context (zip_encode : list (string * bytes) -> bytes).

Lemma same_button_names (a b : Download) :
  file_name a <> file_name b -> same_button a b = false.
Proof.
  intros H. unfold same_button. apply String.eqb_neq in H. rewrite H.
  apply andb_false_r.
Qed.


Lemma not_shown (b : Download) (shown : list Download) :
  (forall a, a ∈ shown -> file_name a <> file_name b) ->
  existsb (same_button b) shown = false.
Proof.
  induction shown as [|a shown IH]; intros H; [reflexivity |].
  cbn [existsb]. rewrite same_button_names, IH; [reflexivity | |].
  - intros x Hx. apply H. now right.
  - apply not_eq_sym, H. left.
Qed.

Lemma read_downloads_ok (paths : list string) (shown : list Download) (w : World) :
  (forall p, p ∈ paths -> is_Some (fs w !! p)) ->
  NoDup (map path_name paths) ->
  (forall p a, p ∈ paths -> a ∈ shown -> file_name a <> path_name p) ->
  read_downloads paths shown w = (Return (map (download_of (fs w)) paths), w).
Proof.
  revert shown. induction paths as [|p rest IH]; intros shown H Hnd Hs; [reflexivity |].
  destruct (H p) as [d Hd]; [left |].
  cbn [map] in Hnd. apply NoDup_cons in Hnd as [Hp Hnd].
  cbn [read_downloads]. unfold bind at 1. unfold read_bytes, bind, get_fs, ret.
  cbn beta iota zeta. rewrite Hd. cbn beta iota zeta.
  rewrite not_shown by (intros a Ha; cbn [file_name]; apply Hs; [left | exact Ha]).
  rewrite IH.
  - cbn [map]. unfold download_of at 2. now rewrite Hd.
  - intros q Hq. apply H. now right.
  - exact Hnd.
  - intros q a Hq Ha. apply elem_of_cons in Ha as [-> | Ha].
    + cbn [file_name]. intros E. apply Hp. rewrite E.
      apply list_elem_of_In, in_map, list_elem_of_In, Hq.
    + apply Hs; [now right | exact Ha].
Qed.


Lemma zip_members_ok (paths : list string) (f : gmap string bytes) :
  (forall p, p ∈ paths -> is_Some (f !! p)) ->
  zip_members f paths = (map member_of (map (download_of f) paths), None).
Proof.
  induction paths as [|p rest IH]; intros H; [reflexivity |].
  cbn [zip_members map]. destruct (H p) as [d Hd]; [left |].
  rewrite Hd, IH by (intros q Hq; apply H; now right).
  unfold download_of, member_of. cbn [file_name data]. now rewrite Hd.
Qed.

(** Files other than [k] are read the same whatever [k] holds. *)
Lemma downloads_frame (f : gmap string bytes) (k : string) (d : bytes)
      (paths : list string) :
  k ∉ paths ->
  map (download_of (<[k := d]> f)) paths = map (download_of f) paths.
Proof.
  intros Hk. apply map_ext_in. intros p Hp. unfold download_of. f_equal.
  rewrite lookup_insert_ne; [reflexivity |].
  intros <-. apply Hk. now apply list_elem_of_In.
Qed.

Lemma readable_frame (f : gmap string bytes) (k : string) (d : bytes)
      (paths : list string) :
  (forall p, p ∈ paths -> is_Some (f !! p)) ->
  forall p, p ∈ paths -> is_Some (<[k := d]> f !! p).
Proof.
  intros H p Hp. destruct (decide (k = p)) as [<- | Hne].
  - rewrite lookup_insert_eq. eauto.
  - rewrite lookup_insert_ne by exact Hne. now apply H.
Qed.

(** What [create_zip] does with files that are all there and none of
    which is the archive. *)
Lemma create_zip_eq (mp3_files : list string) (w : World) :
  (forall p, p ∈ mp3_files -> is_Some (fs w !! p)) ->
  path_join OUTPUT_DIR ZIP_NAME ∉ mp3_files ->
  let zip_path := path_join OUTPUT_DIR ZIP_NAME in
  let members := map member_of (map (download_of (fs w)) mp3_files) in
  create_zip zip_encode mp3_files w
  = (Return zip_path,
     {| fs := <[zip_path := zip_encode members]> (fs w);
        runs := runs w;
        archives := (archives w ++ [(zip_path, members)])%list |}).
Proof.
  intros H Hz. cbv zeta.
  unfold create_zip, bind, get_fs, put_fs, log_archive, ret.
  cbn beta iota zeta. rewrite zip_members_ok by now apply readable_frame.
  rewrite downloads_frame by exact Hz. now rewrite insert_insert_eq.
Qed.

(** What the result section does when every converted file is there, no
    two of them have the same name, and none is the archive. *)
Lemma deliver_ok (converted errs : list string) (w : World) :
  (forall p, p ∈ converted -> is_Some (fs w !! p)) ->
  NoDup (map path_name converted) ->
  path_join OUTPUT_DIR ZIP_NAME ∉ converted ->
  let ds := map (download_of (fs w)) converted in
  let zip_path := path_join OUTPUT_DIR ZIP_NAME in
  deliver zip_encode converted errs w =
  if decide (1 < length converted)%nat then
    (Return {| converted_files := converted; errors := errs; downloads := ds;
               bundle := Some {| file_name := ZIP_NAME;
                                 data := zip_encode (map member_of ds) |} |},
     {| fs := <[zip_path := zip_encode (map member_of ds)]> (fs w);
        runs := runs w;
        archives := (archives w ++ [(zip_path, map member_of ds)])%list |})
  else
    (Return {| converted_files := converted; errors := errs; downloads := ds;
               bundle := None |}, w).
Proof.
  intros H Hnd Hz ds zip_path. unfold deliver.
  assert (Hread : read_downloads converted [] w = (Return ds, w)).
  { apply read_downloads_ok; [exact H | exact Hnd |].
    intros p a _ Ha. now apply elem_of_nil in Ha. }
  destruct converted as [|p [|q rest]].
  - reflexivity.
  - unfold bind. rewrite Hread. reflexivity.
  - unfold bind. rewrite Hread.
    destruct (Z.ltb_spec 1 (Z.of_nat (length (p :: q :: rest)))) as [_ | Hlt];
      [| cbn [length] in Hlt; lia].
    destruct (decide (1 < length (p :: q :: rest))%nat) as [_ | Hn];
      [| cbn [length] in Hn; lia].
    rewrite create_zip_eq by assumption. cbv zeta.
    unfold read_bytes, bind, get_fs, ret. cbn beta iota zeta. cbn [fs].
    rewrite lookup_insert_eq. reflexivity.
Qed.



Lemma rebuild_paths (l : list string) :
  (forall p, p ∈ l -> p = path_join OUTPUT_DIR (path_name p)) ->
  l = path_join OUTPUT_DIR <$> (path_name <$> l).
Proof.
  induction l as [|x l IH]; intros H; [reflexivity |].
  cbn. rewrite <- IH by (intros p Hp; apply H; now right).
  f_equal. apply H. left.
Qed.

Lemma output_path_not_archive (u : UploadedFile) :
  output_path u <> path_join OUTPUT_DIR ZIP_NAME.
Proof.
  intros H. pose proof (PathFacts.output_path_name u) as Hn. rewrite H in Hn.
  assert (He : Str.endswith (mp3_name u) ".mp3" = true)
    by (unfold mp3_name; apply StrFacts.endswith_app).
  rewrite <- Hn in He. vm_compute in He. discriminate He.
Qed.


(** Paths of [OUTPUT_DIR] that differ have names that differ. *)
Lemma names_nodup (l : list string) :
  (forall p, p ∈ l -> p = path_join OUTPUT_DIR (path_name p)) ->
  NoDup l -> NoDup (map path_name l).
Proof.
  intros H Hnd. rewrite (rebuild_paths l H) in Hnd.
  exact (NoDup_fmap_1 (path_join OUTPUT_DIR) _ Hnd).
Qed.


End Bundling.

(** ** The statements at concrete inputs *)



(** C5: the process has written one byte of output when the time limit
    strikes; the item is recorded as a timeout failure, and the partial
    output file is still in the workspace after the turn. *)
Lemma timeout_leaves_partial_output :
  let r := convert_item ffmpeg_slow mktemp_fixed (upload "a.mp4") ([], []) world0 in
  (exists m f,
      ffmpeg_slow (ffmpeg_argv TMP "output/a.mp3") 300
                  (<[TMP := getbuffer (upload "a.mp4")]> (fs world0))
      = (Raise (TimeoutExpired m), f)) /\
  r.1 = ([], ["a.mp4: Timeout: conversão demorou mais de 5 minutos."]) /\
  fs r.2 !! "output/a.mp3" = Some [x49].
Proof.
  cbv zeta. split; [eexists _, _; reflexivity |].
  split; vm_compute; reflexivity.
Qed.

Lemma convert_item_timeout_witness :
  convert_item ffmpeg_slow mktemp_fixed (upload "a.mp4") ([], []) world0 =
  (([], [error_line "a.mp4" MSG_TIMEOUT]),
   {| fs := delete TMP (<["output/a.mp3" := [x49]]>
                          (<[TMP := getbuffer (upload "a.mp4")]> ∅));
      runs := [(ffmpeg_argv TMP "output/a.mp3", 300)];
      archives := [] |}).
Proof.
  apply (convert_item_timeout ffmpeg_slow mktemp_fixed (upload "a.mp4") [] [] world0
           "Command 'ffmpeg' timed out after 300 seconds").
  reflexivity.
Defined.

(** C6: the binary is there but may not be executed; [subprocess.run]
    raises [PermissionError], which the probe does not catch. *)
Lemma check_ffmpeg_permission_error :
  (check_ffmpeg ffmpeg_denied world0).1
  = Raise (PermissionError "[Errno 13] Permission denied: 'ffmpeg'") /\
  ~ exists b : bool, (check_ffmpeg ffmpeg_denied world0).1 = Return b.
Proof.
  split; [reflexivity |]. intros [b H]. discriminate H.
Qed.

Lemma check_ffmpeg_outcomes_witness :
  (check_ffmpeg ffmpeg_good world0).1 = Return true /\
  (check_ffmpeg (ffmpeg_failing "") world0).1 = Return false /\
  (check_ffmpeg ffmpeg_denied world0).1
  = Raise (PermissionError "[Errno 13] Permission denied: 'ffmpeg'").
Proof.
  split; [| split].
  - apply (proj1 (check_ffmpeg_outcomes ffmpeg_good world0)).
    eexists. split; reflexivity.
  - refine (proj1 (proj2 (check_ffmpeg_outcomes (ffmpeg_failing "") world0)) _ _ _).
    + reflexivity.
    + discriminate.
  - refine (proj1 (proj2 (proj2 (proj2 (proj2
              (check_ffmpeg_outcomes ffmpeg_denied world0))))) _ _ _ _).
    + reflexivity.
    + discriminate.
    + discriminate.
Defined.

(** C7: the last line of the diagnostics ends with a space; the message
    recorded is that line without the space. *)
Lemma nonzero_exit_trailing_space :
  let diag := "Conversion failed! " ++ Str.nl in
  let r := (convert_mp4_to_mp3 (ffmpeg_failing diag) TMP "output/a.mp3" world0).1 in
  success r = false /\
  last_nonempty_line diag = Some "Conversion failed! " /\
  error r = Some "Conversion failed!" /\
  error r <> last_nonempty_line diag.
Proof.
  cbv zeta. repeat split; try (vm_compute; reflexivity).
  vm_compute. discriminate.
Qed.

Lemma convert_nonzero_exit_witness :
  (convert_mp4_to_mp3 (ffmpeg_failing DIAG) TMP "output/a.mp3" world0).1
  = conv_fail "a.mp4: Invalid data found when processing input".
Proof.
  refine (proj2 (convert_nonzero_exit (ffmpeg_failing DIAG) TMP "output/a.mp3" world0
                   {| returncode := 1; stdout := ""; stderr := DIAG |} ∅ _ _) _ _ _).
  - reflexivity.
  - discriminate.
  - reflexivity.
  - split; reflexivity.
Defined.

(** C8: the only upload is empty and rejected, so the accepted queue is
    empty; the button's body does not run, and the output and the archive
    of the earlier batch are still in the workspace. *)
Lemma empty_queue_keeps_stale_output :
  let r := page ffmpeg_good mktemp_fixed zip_concat [empty_mp4] true world_used in
  (validate_all [empty_mp4]).1 = [] /\
  fs r.2 !! "output/old.mp3" = Some ID3 /\
  fs r.2 !! "output/todos_mp3.zip" = Some [x50; x4b].
Proof.
  cbv zeta. repeat split; vm_compute; reflexivity.
Qed.

Lemma page_empty_queue_witness :
  page ffmpeg_good mktemp_fixed zip_concat [empty_mp4] true world_used
  = (Return (PageQueue [] ["'empty.mp4' está vazio"]), world_used).
Proof.
  apply (page_empty_queue ffmpeg_good mktemp_fixed zip_concat [empty_mp4] true world_used).
  reflexivity.
Defined.

Lemma clear_outputs_removes_all_witness :
  fs (clear_outputs world_used).2 !! "output/old.mp3" = None /\
  fs (clear_outputs world_used).2 !! "output/todos_mp3.zip" = None.
Proof.
  split.
  - refine (proj1 (clear_outputs_removes_all ffmpeg_good mktemp_fixed zip_concat
                     [] world_used) "old.mp3" _ _); reflexivity.
  - exact (proj1 (proj2 (clear_outputs_removes_all ffmpeg_good mktemp_fixed zip_concat
                           [] world_used))).
Defined.

Lemma clear_outputs_frame_witness :
  fs (clear_outputs world_used).2 !! "output/notes.txt" = Some [x68; x69].
Proof.
  refine (eq_trans (proj1 (clear_outputs_frame world_used) "output/notes.txt" _ _) _).
  - intros n Hn _. injection Hn as <-. reflexivity.
  - discriminate.
  - reflexivity.
Defined.

(** The loop on a queue of two, the second of which fails. *)
Example convert_loop_two :
  let picky argv timeout f :=
      if String.eqb (List.last argv "") "output/b.mp3"
      then ffmpeg_failing ("unsupported codec" ++ Str.nl) argv timeout f
      else ffmpeg_good argv timeout f in
  let res := convert_loop picky mktemp_fixed [upload "a.mp4"; upload "b.mp4"] ([], []) world0 in
  res.1 = (["output/a.mp3"], ["b.mp4: unsupported codec"]) /\
  List.length (runs res.2) = 2%nat /\
  fs res.2 !! TMP = None.
Proof. cbv zeta. repeat split; vm_compute; reflexivity. Qed.

(** When a process has removed an earlier output, the result section
    stops at the first download with the read error, two successes or
    not, and no archive is written. *)
Example result_section_needs_files :
  let r := run_batch ffmpeg_fickle mktemp_fixed zip_concat
                     [upload "a.mp4"; upload "b.mp4"; upload "c.mp4"] world0 in
  r.1 = Raise (FileNotFoundError
                 "[Errno 2] No such file or directory: 'output/a.mp3'") /\
  archives r.2 = [].
Proof. cbv zeta. split; vm_compute; reflexivity. Qed.

Example validate_ok :
  validate_file {| name := "Clip.MP4"; size := 5; getbuffer := [] |} = (true, "").
Proof. reflexivity. Qed.

(** * Further properties of the script *)

(** ** The validation loop *)

Lemma validate_all_valid (uploaded_files : list UploadedFile) :
  (validate_all uploaded_files).1
  = List.filter (fun f => (validate_file f).1) uploaded_files.
Proof.
  induction uploaded_files as [|f rest IH]; [reflexivity |].
  cbn [validate_all List.filter].
  destruct (validate_all rest) as [valid invalid]. cbn [fst] in IH. subst valid.
  destruct (validate_file f) as [[] reason]; reflexivity.
Qed.

Lemma validate_all_invalid (uploaded_files : list UploadedFile) :
  (validate_all uploaded_files).2
  = map (fun f => (validate_file f).2)
        (List.filter (fun f => negb (validate_file f).1) uploaded_files).
Proof.
  induction uploaded_files as [|f rest IH]; [reflexivity |].
  cbn [validate_all List.filter].
  destruct (validate_all rest) as [valid invalid]. cbn [snd] in IH. subst invalid.
  destruct (validate_file f) as [[] reason] eqn:E; cbn [fst snd negb map];
    rewrite ?E; reflexivity.
Qed.

Lemma validate_all_accepted (l : list UploadedFile) :
  (forall f, In f l -> (validate_file f).1 = true) -> validate_all l = (l, []).
Proof.
  induction l as [|f rest IH]; intros H; [reflexivity |].
  cbn [validate_all]. rewrite IH by (intros g Hg; apply H; now right).
  pose proof (H f (or_introl eq_refl)) as Hf.
  destruct (validate_file f) as [b reason]. cbn [fst] in Hf. now subst b.
Qed.

(** X1. The validation loop splits the uploads without reordering: the
    accepted queue is the uploads that pass [validate_file], in upload
    order; the error list is the reasons of the others, in upload order;
    the two lengths add up to the number of uploads; and validating the
    accepted queue again accepts all of it. *)
Theorem validate_all_partition (uploaded_files : list UploadedFile) :
  let valid := (validate_all uploaded_files).1 in
  let invalid := (validate_all uploaded_files).2 in
  valid = List.filter (fun f => (validate_file f).1) uploaded_files /\
  invalid = map (fun f => (validate_file f).2)
                (List.filter (fun f => negb (validate_file f).1) uploaded_files) /\
  (length valid + length invalid = length uploaded_files)%nat /\
  validate_all valid = (valid, []).
Proof.
  cbv zeta. rewrite validate_all_valid, validate_all_invalid.
  split; [reflexivity |]. split; [reflexivity |]. split.
  - rewrite length_map.
    induction uploaded_files as [|f rest IH]; [reflexivity |].
    cbn [List.filter]. destruct (validate_file f).1; cbn [negb length]; lia.
  - apply validate_all_accepted. intros f Hf. now apply filter_In in Hf as [_ Hf].
Qed.

(** X2. The reason [validate_file] returns is empty exactly when the file
    is accepted: every rejection carries a non-empty message. *)
Theorem validate_reason_empty_iff (u : UploadedFile) :
  (validate_file u).2 = "" <-> (validate_file u).1 = true.
Proof.
  unfold validate_file.
  destruct (negb _); [cbn; split; discriminate |].
  destruct (size u =? 0); [cbn; split; discriminate |].
  destruct (size u >? MAX_SIZE); [cbn; split; discriminate |].
  cbn. split; reflexivity.
Qed.

(** ** The conversion worker, path by path *)
Section WorkerPaths.

Context (process : list string -> Z -> gmap string bytes ->
                   py_result CompletedProcess * gmap string bytes).

Lemma convert_exit_zero (input_path output_path : string) (w : World)
      (cp : CompletedProcess) (f : gmap string bytes) :
  process (ffmpeg_argv input_path output_path) 300 (fs w) = (Return cp, f) ->
  returncode cp = 0 ->
  (convert_mp4_to_mp3 process input_path output_path w).1
  = match f !! output_path with
    | Some (_ :: _) => conv_ok
    | _ => conv_fail MSG_EMPTY_OUTPUT
    end.
Proof.
  intros Hp Hrc. unfold convert_mp4_to_mp3, bind, subprocess_run.
  rewrite Hp. cbn [fst snd]. rewrite Hrc. cbn [Z.eqb negb].
  unfold path_exists, st_size, bind, get_fs, ret. cbn [fst snd fs].
  destruct (f !! output_path) as [[|b d] |].
  - rewrite bool_decide_eq_true_2 by eauto. reflexivity.
  - rewrite bool_decide_eq_true_2 by eauto. cbn [negb orb length].
    destruct (Z.eqb_spec (Z.of_nat (S (length d))) 0) as [H0 | _]; [lia | reflexivity].
  - rewrite bool_decide_eq_false_2 by (intros [? [=]]). reflexivity.
Qed.

Lemma convert_not_completed (input_path output_path : string) (w : World) :
  (forall cp, (process (ffmpeg_argv input_path output_path) 300 (fs w)).1 = Return cp ->
              returncode cp <> 0) ->
  success (convert_mp4_to_mp3 process input_path output_path w).1 = false.
Proof.
  intros H. unfold convert_mp4_to_mp3, bind, subprocess_run.
  destruct (process _ 300 (fs w)) as [[cp | e] f]; cbn [fst snd] in *.
  - specialize (H cp eq_refl). apply Z.eqb_neq in H. now rewrite H.
  - now destruct e.
Qed.

(** X3. [convert_mp4_to_mp3] reports success exactly when the process
    completes with exit status 0 and the files it leaves hold a non-empty
    file at the output path; the result is then the bare success
    dictionary, without an error entry. *)
Theorem convert_success_iff (input_path output_path : string) (w : World) :
  let pr := process (ffmpeg_argv input_path output_path) 300 (fs w) in
  let r := (convert_mp4_to_mp3 process input_path output_path w).1 in
  (success r = true <->
   exists cp d, pr.1 = Return cp /\ returncode cp = 0 /\
                pr.2 !! output_path = Some d /\ d <> []) /\
  (success r = true -> r = conv_ok).
Proof.
  cbv zeta.
  destruct (process (ffmpeg_argv input_path output_path) 300 (fs w))
    as [[cp | e] f] eqn:Hp; cbn [fst snd].
  - destruct (Z.eq_dec (returncode cp) 0) as [Hrc | Hrc].
    + rewrite (convert_exit_zero _ _ _ _ _ Hp Hrc).
      destruct (f !! output_path) as [[|b d] |]; cbn [success conv_ok conv_fail].
      * split; [| discriminate]. split; [discriminate |].
        intros (cp' & d' & _ & _ & [= <-] & Hd). contradiction.
      * split; [| reflexivity]. split; [| reflexivity].
        intros _. exists cp, (b :: d). repeat split; auto; discriminate.
      * split; [| discriminate]. split; [discriminate |].
        intros (cp' & d' & _ & _ & [=] & _).
    + rewrite convert_not_completed.
      * split; [| discriminate]. split; [discriminate |].
        intros (cp' & d' & [= <-] & Hrc' & _). contradiction.
      * rewrite Hp. cbn [fst]. now intros cp' [= <-].
  - rewrite convert_not_completed.
    + split; [| discriminate]. split; [discriminate |].
      intros (cp' & d' & [=] & _).
    + rewrite Hp. cbn [fst]. intros cp' [=].
Qed.

(** X4. When the process exits with status 0 but leaves no file, or an
    empty file, at the output path, the outcome is a failure with the
    message that the output is empty or was not created. *)
Theorem convert_empty_output (input_path output_path : string) (w : World)
        (cp : CompletedProcess) (f : gmap string bytes) :
  process (ffmpeg_argv input_path output_path) 300 (fs w) = (Return cp, f) ->
  returncode cp = 0 ->
  f !! output_path = None \/ f !! output_path = Some [] ->
  (convert_mp4_to_mp3 process input_path output_path w).1 = conv_fail MSG_EMPTY_OUTPUT.
Proof.
  intros Hp Hrc Hout. rewrite (convert_exit_zero _ _ _ _ _ Hp Hrc).
  unfold bytes in *. now destruct Hout as [-> | ->].
Qed.

(** X5. When launching the process raises anything but a timeout (the
    binary is missing, may not be executed, any other error), the
    exception does not leave the worker: the outcome is a failure whose
    message is the text of the exception. *)
Theorem convert_launch_failure (input_path output_path : string) (w : World)
        (e : py_exception) (f : gmap string bytes) :
  process (ffmpeg_argv input_path output_path) 300 (fs w) = (Raise e, f) ->
  (forall m, e <> TimeoutExpired m) ->
  (convert_mp4_to_mp3 process input_path output_path w).1 = conv_fail (str_exception e).
Proof.
  intros Hp Hne. unfold convert_mp4_to_mp3, bind, subprocess_run.
  rewrite Hp. cbn [fst snd].
  destruct e as [m | m | m | m | m | m]; try reflexivity. now destruct (Hne m).
Qed.

(** X6. Whatever the outcome, the worker launches exactly one process,
    [ffmpeg -y -i input -vn -acodec libmp3lame -ab 192k -ar 44100 output]
    with a timeout of 300 seconds, and itself creates, changes and
    deletes no file and writes no archive: the files afterwards are those
    the process left. *)
Theorem convert_one_process (input_path output_path : string) (w : World) :
  let w' := (convert_mp4_to_mp3 process input_path output_path w).2 in
  fs w' = (process (ffmpeg_argv input_path output_path) 300 (fs w)).2 /\
  runs w' = (runs w ++ [(["ffmpeg"; "-y"; "-i"; input_path; "-vn"; "-acodec";
                          "libmp3lame"; "-ab"; "192k"; "-ar"; "44100"; output_path],
                         300)])%list /\
  archives w' = archives w.
Proof.
  cbv zeta. rewrite convert_world. repeat split.
Qed.

End WorkerPaths.

(** ** Output names *)
Module NameFacts.
Import Str StrFacts.

Lemma length_app (a b : string) :
  String.length (a ++ b) = (String.length a + String.length b)%nat.
Proof. induction a as [|c a IH]; simpl; [reflexivity | now rewrite IH]. Qed.

Lemma app_inv_tail (a b t : string) : a ++ t = b ++ t -> a = b.
Proof.
  revert b. induction a as [|x a IH]; intros [|y b] H; simpl in H.
  - reflexivity.
  - apply (f_equal String.length) in H. simpl in H. rewrite length_app in H. lia.
  - apply (f_equal String.length) in H. simpl in H. rewrite length_app in H. lia.
  - injection H as -> H. f_equal. now apply IH.
Qed.

Lemma rfind_absent (c : ascii) (s : string) :
  contains c s = false -> rfind c s = -1.
Proof.
  induction s as [|a s IH]; simpl; [reflexivity |].
  rewrite orb_false_iff. intros [Ha Hs]. rewrite (IH Hs), Ha. reflexivity.
Qed.

(** The last occurrence is the one after which there is no other. *)
Lemma rfind_app_last (c : ascii) (pre rest : string) :
  contains c rest = false ->
  rfind c (pre ++ String c rest) = Z.of_nat (String.length pre).
Proof.
  intros H. induction pre as [|a pre IH].
  - simpl. rewrite (rfind_absent _ _ H), Ascii.eqb_refl. reflexivity.
  - change (String a pre ++ String c rest) with (String a (pre ++ String c rest)).
    cbn [rfind]. rewrite IH.
    destruct (Z.leb_spec 0 (Z.of_nat (String.length pre))) as [_ | Hneg]; [| lia].
    cbn [String.length]. lia.
Qed.

Lemma substring_app_head (pre rest : string) :
  String.substring 0 (String.length pre) (pre ++ rest) = pre.
Proof.
  induction pre as [|a pre IH]; simpl.
  - now destruct rest.
  - now rewrite IH.
Qed.

Lemma lower_ascii_dot (c : ascii) : lower_ascii c = "."%char -> c = "."%char.
Proof.
  destruct c as [[] [] [] [] [] [] [] []]; intros H;
    first [reflexivity | discriminate H].
Qed.

(** An extension that reads [.mp4] in lower case: a dot and three
    characters that are neither a dot nor a slash. *)
Lemma mp4_extension_shape (ext : string) :
  lower ext = ".mp4" ->
  exists t, ext = String "." t /\ String.length t = 3%nat /\
            contains "." t = false /\ contains "/" ext = false.
Proof.
  destruct ext as [|c0 [|c1 [|c2 [|c3 [|c4 rest]]]]]; cbn [lower]; try discriminate.
  intros H. injection H as H0 H1 H2 H3.
  apply lower_ascii_dot in H0. subst c0.
  exists (String c1 (String c2 (String c3 ""))).
  split; [reflexivity |]. split; [reflexivity |].
  assert (Hc : forall c x, lower_ascii c = x -> x <> "."%char -> x <> "/"%char ->
                           Ascii.eqb c "." = false /\ Ascii.eqb c "/" = false).
  { intros c x Hx Hd Hs.
    split; apply Ascii.eqb_neq; intros ->; vm_compute in Hx; congruence. }
  destruct (Hc c1 _ H1) as [D1 S1]; [discriminate | discriminate |].
  destruct (Hc c2 _ H2) as [D2 S2]; [discriminate | discriminate |].
  destruct (Hc c3 _ H3) as [D3 S3]; [discriminate | discriminate |].
  cbn [contains]. rewrite D1, D2, D3, S1, S2, S3. split; reflexivity.
Qed.

(** The output name of an upload whose name is a directory part, a base
    and an extension that reads [.mp4]. *)
Lemma mp3_name_of_parts (u : UploadedFile) (dir base ext : string) :
  name u = dir ++ base ++ ext ->
  closed_by "/" dir ->
  contains "/" base = false ->
  lower ext = ".mp4" ->
  mp3_name u = (if String.eqb base "" then ext else base) ++ ".mp3".
Proof.
  intros Hname Hdir Hbase Hext.
  destruct (mp4_extension_shape ext Hext) as (t & -> & Hlen & Hdot & Hslash).
  unfold mp3_name, path_stem. f_equal.
  assert (Hnm : path_name (name u) = base ++ String "." t).
  { rewrite Hname. unfold path_name. apply last_split_line; [| exact Hdir].
    now rewrite PathFacts.contains_app, Hbase, Hslash. }
  rewrite Hnm, (rfind_app_last _ _ _ Hdot). unfold len, take.
  rewrite length_app. cbn [String.length]. rewrite Hlen.
  destruct base as [|b base].
  - reflexivity.
  - cbn [String.eqb String.length].
    replace (0 <? Z.of_nat (S (String.length base))) with true
      by (symmetry; apply Z.ltb_lt; lia).
    replace (Z.of_nat (S (String.length base))
             <? Z.of_nat (S (String.length base) + 4) - 1) with true
      by (symmetry; apply Z.ltb_lt; lia).
    cbn [andb]. rewrite Nat2Z.id.
    apply (substring_app_head (String b base)).
Qed.

(** X7. The output name replaces the extension: for an upload named
    directory part, base, extension, where the extension reads [.mp4] in
    any mix of cases and the base is not empty, the output file is named
    base followed by [.mp3]; when the base is empty (the whole name is the
    extension) the name is kept whole and [.mp3] appended. *)
Theorem mp3_name_replaces_extension (u : UploadedFile) (dir base ext : string) :
  name u = dir ++ base ++ ext ->
  closed_by "/" dir ->
  contains "/" base = false ->
  lower ext = ".mp4" ->
  mp3_name u = (if String.eqb base "" then ext else base) ++ ".mp3" /\
  output_path u = path_join OUTPUT_DIR (mp3_name u) /\
  path_name (output_path u) = mp3_name u.
Proof.
  intros Hname Hdir Hbase Hext.
  split; [now apply (mp3_name_of_parts u dir) |].
  split; [reflexivity | apply PathFacts.output_path_name].
Qed.

(** X8. Two uploads collide on the output path exactly when their bases
    agree: for names base and extension, with non-empty slash-free bases
    and extensions that read [.mp4], the output paths are equal if and
    only if the bases are equal, whatever the case of the extensions. *)
Theorem output_path_collision (u1 u2 : UploadedFile) (base1 ext1 base2 ext2 : string) :
  name u1 = base1 ++ ext1 -> name u2 = base2 ++ ext2 ->
  base1 <> "" -> base2 <> "" ->
  contains "/" base1 = false -> contains "/" base2 = false ->
  lower ext1 = ".mp4" -> lower ext2 = ".mp4" ->
  (output_path u1 = output_path u2 <-> base1 = base2).
Proof.
  intros N1 N2 E1 E2 S1 S2 L1 L2.
  assert (M1 : mp3_name u1 = base1 ++ ".mp3").
  { rewrite (mp3_name_of_parts u1 "" base1 ext1); auto; [| now left].
    apply String.eqb_neq in E1. now rewrite E1. }
  assert (M2 : mp3_name u2 = base2 ++ ".mp3").
  { rewrite (mp3_name_of_parts u2 "" base2 ext2); auto; [| now left].
    apply String.eqb_neq in E2. now rewrite E2. }
  unfold output_path. rewrite M1, M2. split.
  - intros H. unfold path_join, OUTPUT_DIR in H. cbn in H.
    injection H as H. now apply app_inv_tail in H.
  - now intros ->.
Qed.

End NameFacts.

(** ** The archive writer and the result section, file by file *)
Section ArchivePaths.

Context (zip_encode : list (string * bytes) -> bytes).

Lemma members_of_files (f : gmap string bytes) (mp3_files : list string) :
  (forall p, p ∈ mp3_files -> is_Some (f !! p)) ->
  Forall2 (fun p m => m.1 = path_name p /\ f !! p = Some m.2)
          mp3_files (map member_of (map (download_of f) mp3_files)).
Proof.
  induction mp3_files as [|p rest IH]; intros H; [constructor |].
  cbn [map]. constructor.
  - destruct (H p) as [d Hd]; [left |].
    unfold member_of, download_of. cbn [file_name data fst snd].
    rewrite Hd. split; reflexivity.
  - apply IH. intros q Hq. apply H. now right.
Qed.

(** X9. Given files that are all there, none of them the archive itself,
    [create_zip] returns the fixed path [output/todos_mp3.zip] and
    writes that file, replacing what was there, as the archive of one
    member per given file, in the given order, each under the file's
    base name and with the file's bytes; it leaves every other file as
    it was and launches no process. *)
Theorem create_zip_written (mp3_files : list string) (w : World) :
  (forall p, p ∈ mp3_files -> is_Some (fs w !! p)) ->
  path_join OUTPUT_DIR ZIP_NAME ∉ mp3_files ->
  let zip_path := path_join OUTPUT_DIR ZIP_NAME in
  let r := create_zip zip_encode mp3_files w in
  exists members,
    r.1 = Return zip_path /\
    fs r.2 !! zip_path = Some (zip_encode members) /\
    Forall2 (fun p m => m.1 = path_name p /\ fs w !! p = Some m.2) mp3_files members /\
    (forall p, p <> zip_path -> fs r.2 !! p = fs w !! p) /\
    runs r.2 = runs w /\
    archives r.2 = (archives w ++ [(zip_path, members)])%list.
Proof.
  intros H Hz. cbv zeta. rewrite (create_zip_eq _ _ _ H Hz). cbv zeta.
  cbn [fst snd fs runs archives].
  eexists. split; [reflexivity |].
  split; [apply lookup_insert_eq |].
  split; [now apply members_of_files |].
  split; [| split; reflexivity].
  intros p Hp. now apply lookup_insert_ne.
Qed.

(** X10. Calling [create_zip] again on the same files, none of which is
    the archive itself, leaves the files exactly as the first call left
    them: the archive is overwritten with the same members. *)
Theorem create_zip_again (mp3_files : list string) (w : World) :
  (forall p, p ∈ mp3_files -> is_Some (fs w !! p)) ->
  path_join OUTPUT_DIR ZIP_NAME ∉ mp3_files ->
  let w1 := (create_zip zip_encode mp3_files w).2 in
  fs (create_zip zip_encode mp3_files w1).2 = fs w1.
Proof.
  intros H Hz. cbv zeta. rewrite (create_zip_eq _ _ _ H Hz). cbv zeta. cbn [snd].
  set (zip_path := path_join OUTPUT_DIR ZIP_NAME) in *.
  set (members := map member_of (map (download_of (fs w)) mp3_files)).
  rewrite create_zip_eq; cbn [fs].
  - cbv zeta. cbn [snd fs]. fold zip_path. rewrite insert_insert_eq.
    rewrite downloads_frame by exact Hz. reflexivity.
  - now apply readable_frame.
  - exact Hz.
Qed.

Lemma zip_members_missing (f : gmap string bytes) (present : list string)
      (q : string) (rest : list string) :
  (forall p, p ∈ present -> is_Some (f !! p)) -> f !! q = None ->
  zip_members f (present ++ q :: rest)
  = (map member_of (map (download_of f) present),
     Some (FileNotFoundError (no_such_file q))).
Proof.
  intros H Hq. induction present as [|p present IH].
  - cbn [app zip_members map]. now rewrite Hq.
  - cbn [app zip_members map]. destruct (H p) as [d Hd]; [left |].
    rewrite Hd, IH by (intros x Hx; apply H; now right).
    unfold download_of, member_of. cbn [file_name data]. now rewrite Hd.
Qed.

(** X11. When one of the files given to [create_zip] is missing (the
    files before it are there, none of them is the archive, and the
    missing one is an entry of the output directory other than the
    archive), the call raises [FileNotFoundError] for the first missing
    file, with the text Python gives it, and the archive is nevertheless
    left on disk, holding the members that came before it. *)
Theorem create_zip_missing_file (present : list string) (q : string)
        (rest : list string) (w : World) :
  (forall p, p ∈ present -> is_Some (fs w !! p)) ->
  path_join OUTPUT_DIR ZIP_NAME ∉ present ->
  missing_output (fs w) q ->
  q <> path_join OUTPUT_DIR ZIP_NAME ->
  let zip_path := path_join OUTPUT_DIR ZIP_NAME in
  let members := map member_of (map (download_of (fs w)) present) in
  create_zip zip_encode (present ++ q :: rest) w
  = (Raise (FileNotFoundError
              ("[Errno 2] No such file or directory: " ++ Str.repr q)),
     {| fs := <[zip_path := zip_encode members]> (fs w);
        runs := runs w;
        archives := (archives w ++ [(zip_path, members)])%list |}).
Proof.
  intros H Hz [Hq _] Hne. cbv zeta.
  unfold create_zip, bind, get_fs, put_fs, log_archive, ret.
  cbn beta iota zeta. rewrite zip_members_missing.
  - rewrite downloads_frame by exact Hz. now rewrite insert_insert_eq.
  - now apply readable_frame.
  - rewrite lookup_insert_ne by now apply not_eq_sym. exact Hq.
Qed.

Lemma read_downloads_world (paths : list string) (shown : list Download)
      (w : World) :
  (read_downloads paths shown w).2 = w.
Proof.
  revert shown. induction paths as [|p rest IH]; intros shown; [reflexivity |].
  cbn [read_downloads]. unfold bind at 1. unfold read_bytes, bind, get_fs, ret.
  cbn beta iota zeta. destruct (fs w !! p) as [d |]; [| reflexivity].
  cbn beta iota zeta. destruct (existsb _ shown); [reflexivity |].
  specialize (IH ({| file_name := path_name p; data := d |} :: shown)).
  destruct (read_downloads rest _ w) as [[ds | e] w1].
  all: cbn [snd] in IH; now subst w1.
Qed.

Lemma read_downloads_missing (present : list string) (q : string)
      (rest : list string) (shown : list Download) (w : World) :
  (forall p, p ∈ present -> is_Some (fs w !! p)) ->
  NoDup (map path_name present) ->
  (forall p a, p ∈ present -> a ∈ shown -> file_name a <> path_name p) ->
  fs w !! q = None ->
  read_downloads (present ++ q :: rest) shown w
  = (Raise (FileNotFoundError (no_such_file q)), w).
Proof.
  intros H Hnd Hs Hq. revert shown Hs.
  induction present as [|p present IH]; intros shown Hs.
  - cbn [app read_downloads]. unfold bind at 1. unfold read_bytes, bind, get_fs, ret.
    cbn beta iota zeta. now rewrite Hq.
  - cbn [map] in Hnd. apply NoDup_cons in Hnd as [Hp Hnd].
    cbn [app read_downloads]. unfold bind at 1. unfold read_bytes, bind, get_fs, ret.
    cbn beta iota zeta. destruct (H p) as [d Hd]; [left |]. rewrite Hd.
    cbn beta iota zeta.
    rewrite not_shown by (intros a Ha; cbn [file_name]; apply Hs; [left | exact Ha]).
    rewrite IH; [reflexivity | | exact Hnd |].
    + intros x Hx. apply H. now right.
    + intros x a Hx Ha. apply elem_of_cons in Ha as [-> | Ha].
      * cbn [file_name]. intros E. apply Hp. rewrite E.
        apply list_elem_of_In, in_map, list_elem_of_In, Hx.
      * apply Hs; [now right | exact Ha].
Qed.

(** X12. When a converted file is no longer there as the results are
    shown (the files before it are there under names that differ, and
    the missing one is an entry of the output directory), the result
    section stops at the first such file with its [FileNotFoundError],
    with the text Python gives it: nothing is written, and no archive is
    made, however many successes there are. *)
Theorem deliver_missing_file (present : list string) (q : string)
        (rest errs : list string) (w : World) :
  (forall p, p ∈ present -> is_Some (fs w !! p)) ->
  NoDup (map path_name present) ->
  missing_output (fs w) q ->
  deliver zip_encode (present ++ q :: rest) errs w
  = (Raise (FileNotFoundError
              ("[Errno 2] No such file or directory: " ++ Str.repr q)), w).
Proof.
  intros H Hnd [Hq _]. unfold deliver.
  destruct (present ++ q :: rest)%list as [|x l] eqn:E.
  - now destruct present.
  - rewrite <- E. unfold bind. rewrite read_downloads_missing; [reflexivity | | | |].
    + exact H.
    + exact Hnd.
    + intros p a _ Ha. now apply elem_of_nil in Ha.
    + exact Hq.
Qed.

(** X13. The clearing step is idempotent: run a second time right after
    itself it changes nothing. *)
Theorem clear_outputs_idempotent (w : World) :
  clear_outputs (clear_outputs w).2 = (tt, (clear_outputs w).2).
Proof.
  rewrite (clear_outputs_eq w). cbn [snd]. rewrite clear_outputs_eq.
  unfold with_fs. cbn [fs runs archives].
  now rewrite !cleared_keep_others, keep_others_idemp.
Qed.

End ArchivePaths.

(** ** Whole batches and the whole script *)
Section WholeBatches.

Context (process : list string -> Z -> gmap string bytes ->
                   py_result CompletedProcess * gmap string bytes).
Context (mktemp : gmap string bytes -> string -> string).
Context (zip_encode : list (string * bytes) -> bytes).

Lemma convert_loop_all_fail (valid_files : list UploadedFile) (c e : list string)
      (w : World) :
  (forall argv f cp, (process argv 300 f).1 = Return cp -> returncode cp <> 0) ->
  exists es,
    (convert_loop process mktemp valid_files (c, e) w).1 = (c, (e ++ es)%list) /\
    Forall2 (fun u line => exists m, line = error_line (name u) m) valid_files es.
Proof.
  intros Hfail. revert e w. induction valid_files as [|u rest IH]; intros e w.
  - exists []. cbn. rewrite app_nil_r. split; [reflexivity | constructor].
  - cbn [convert_loop]. unfold bind. rewrite convert_item_unfold. cbv zeta.
    rewrite convert_not_completed by (intros cp; apply Hfail).
    destruct (IH (e ++ [error_line (name u) (error_of
                  (convert_mp4_to_mp3 process (mktemp (fs w) ".mp4") (output_path u)
                     (with_fs w (<[mktemp (fs w) ".mp4" := getbuffer u]> (fs w)))).1)])%list
                 (with_fs
                    (convert_mp4_to_mp3 process (mktemp (fs w) ".mp4") (output_path u)
                       (with_fs w (<[mktemp (fs w) ".mp4" := getbuffer u]> (fs w)))).2
                    (delete (mktemp (fs w) ".mp4")
                       (fs (convert_mp4_to_mp3 process (mktemp (fs w) ".mp4")
                              (output_path u)
                              (with_fs w (<[mktemp (fs w) ".mp4" := getbuffer u]>
                                            (fs w)))).2))))
      as (es & Hes & Hall).
    eexists (_ :: es). rewrite Hes, <- app_assoc. split; [reflexivity |].
    constructor; [eauto | exact Hall].
Qed.

(** X14. When no conversion process exits with status 0, the batch still
    runs to its end and shows its result section: there is no success, no
    download and no archive, and the failures list one line per accepted
    item, in upload order, each beginning with the item's name. *)
Theorem run_batch_all_fail (valid_files : list UploadedFile) (w : World) :
  (forall argv f cp, (process argv 300 f).1 = Return cp -> returncode cp <> 0) ->
  exists errs w',
    run_batch process mktemp zip_encode valid_files w
    = (Return {| converted_files := []; errors := errs; downloads := [];
                 bundle := None |}, w') /\
    Forall2 (fun u line => exists m, line = error_line (name u) m) valid_files errs /\
    archives w' = archives w.
Proof.
  intros Hfail. rewrite run_batch_unfold. cbv zeta.
  destruct (convert_loop_all_fail valid_files [] [] (with_fs w (cleared (fs w))) Hfail)
    as (es & Hes & Hall).
  destruct (convert_loop_outcomes process mktemp valid_files [] []
              (with_fs w (cleared (fs w)))) as (_ & _ & _ & _ & _ & _ & _ & Ha).
  destruct (convert_loop _ _ _ _ _) as [[c e] w1]. cbn [fst snd] in *.
  injection Hes as -> ->. exists es, w1. cbn. auto.
Qed.

Lemma convert_loop_all_succeed (valid_files : list UploadedFile) (c : list string)
      (w : World) :
  (forall inp out f, exists cp d,
      process (ffmpeg_argv inp out) 300 f = (Return cp, <[out := d]> f) /\
      returncode cp = 0 /\ d <> []) ->
  (forall f s u, mktemp f s <> output_path u) ->
  (forall p, p ∈ c -> (exists u, p = output_path u) /\
                      exists d, fs w !! p = Some d /\ d <> []) ->
  let res := convert_loop process mktemp valid_files (c, []) w in
  res.1 = ((c ++ map output_path valid_files)%list, []) /\
  (forall p, p ∈ (c ++ map output_path valid_files)%list ->
             exists d, fs res.2 !! p = Some d /\ d <> []).
Proof.
  intros Hgood Htmp. cbv zeta. revert c w.
  induction valid_files as [|u rest IH]; intros c w Hc.
  - cbn. rewrite app_nil_r. split; [reflexivity |]. intros p Hp. now apply Hc.
  - cbn [convert_loop]. unfold bind. rewrite convert_item_unfold. cbv zeta.
    set (tmp := mktemp (fs w) ".mp4").
    set (f1 := <[tmp := getbuffer u]> (fs w)).
    destruct (Hgood tmp (output_path u) f1) as (cp & d & Hp & Hrc & Hd).
    assert (Hr : (convert_mp4_to_mp3 process tmp (output_path u) (with_fs w f1)).1
                 = conv_ok).
    { rewrite (convert_exit_zero process tmp (output_path u) (with_fs w f1) cp
                 (<[output_path u := d]> f1) Hp Hrc).
      unfold bytes in *. rewrite lookup_insert_eq. now destruct d. }
    assert (Hw : fs (convert_mp4_to_mp3 process tmp (output_path u) (with_fs w f1)).2
                 = <[output_path u := d]> f1).
    { rewrite convert_world. cbn [after_run fs with_fs]. now rewrite Hp. }
    rewrite Hr, Hw. cbn [success conv_ok].
    match goal with
    | |- context [convert_loop _ _ rest (?acc, []) ?w1] =>
        destruct (IH acc w1) as [Hres Hfiles]
    end.
    + intros p Hp'. cbn [with_fs fs].
      apply elem_of_app in Hp' as [Hin | Hin].
      * destruct (Hc p Hin) as [[u' ->] (d' & Hd' & Hne)].
        split; [eauto |].
        rewrite lookup_delete_ne by apply Htmp.
        destruct (decide (output_path u = output_path u')) as [<- | Hneq].
        -- rewrite lookup_insert_eq. eauto.
        -- rewrite lookup_insert_ne by exact Hneq. unfold f1.
           rewrite lookup_insert_ne by apply Htmp. eauto.
      * apply list_elem_of_singleton in Hin. subst p. split; [eauto |].
        rewrite lookup_delete_ne by apply Htmp.
        rewrite lookup_insert_eq. eauto.
    + rewrite Hres, <- app_assoc. split; [reflexivity |].
      intros p Hp'. apply Hfiles. now rewrite <- app_assoc.
Qed.

(** X15. When every conversion process exits with status 0 after writing
    a non-empty file to its output path and touching nothing else,
    temporary names never fall on an output path, and no two accepted
    items have the same output path, the batch succeeds on every item:
    the successes are the items' output paths in upload order, there is
    no failure, each output is offered under the name stem plus [.mp3],
    the archive is offered exactly when more than one item was accepted,
    and at the end every output path holds a non-empty file. *)
Theorem run_batch_all_succeed (valid_files : list UploadedFile) (w : World) :
  (forall inp out f, exists cp d,
      process (ffmpeg_argv inp out) 300 f = (Return cp, <[out := d]> f) /\
      returncode cp = 0 /\ d <> []) ->
  (forall f s u, mktemp f s <> output_path u) ->
  NoDup (map output_path valid_files) ->
  exists view w',
    run_batch process mktemp zip_encode valid_files w = (Return view, w') /\
    converted_files view = map output_path valid_files /\
    errors view = [] /\
    map file_name (downloads view) = map mp3_name valid_files /\
    (is_Some (bundle view) <-> (1 < length valid_files)%nat) /\
    (forall u, u ∈ valid_files -> exists d, fs w' !! output_path u = Some d /\ d <> []).
Proof.
  intros Hgood Htmp Hnd. rewrite run_batch_unfold. cbv zeta.
  destruct (convert_loop_all_succeed valid_files [] (with_fs w (cleared (fs w)))
              Hgood Htmp) as [Hres Hfiles].
  { intros p Hp. now apply elem_of_nil in Hp. }
  cbn [app] in Hres, Hfiles.
  destruct (convert_loop _ _ _ _ _) as [[c e] w1]. cbn [fst snd] in *.
  injection Hres as -> ->.
  assert (Hout : forall p, p ∈ map output_path valid_files -> exists u, p = output_path u).
  { intros p Hp. apply list_elem_of_In, in_map_iff in Hp as (u & <- & _). eauto. }
  rewrite deliver_ok.
  2: { intros p Hp. destruct (Hfiles p Hp) as (d & Hd & _). eauto. }
  2: { apply names_nodup; [| exact Hnd].
       intros p Hp. destruct (Hout p Hp) as [u ->].
       now rewrite PathFacts.output_path_name. }
  2: { intros Hz. destruct (Hout _ Hz) as [u Hu].
       exact (output_path_not_archive u (eq_sym Hu)). }
  cbv zeta. rewrite length_map.
  assert (Hnames : map file_name (map (download_of (fs w1)) (map output_path valid_files))
                   = map mp3_name valid_files).
  { rewrite !List.map_map. apply map_ext. intros u. cbn.
    apply PathFacts.output_path_name. }
  assert (Hin : forall u, u ∈ valid_files -> output_path u ∈ map output_path valid_files).
  { intros u Hu. apply list_elem_of_In, in_map, list_elem_of_In, Hu. }
  destruct (decide (1 < length valid_files)%nat) as [Hlt | Hle].
  - eexists _, _. split; [reflexivity |].
    cbn [converted_files errors downloads bundle fs].
    repeat split; auto.
    intros u Hu. rewrite lookup_insert_ne by (apply not_eq_sym, output_path_not_archive).
    apply Hfiles, Hin, Hu.
  - eexists _, _. split; [reflexivity |].
    cbn [converted_files errors downloads bundle].
    repeat split; auto.
    + intros [? [=]].
    + intros; lia.
Qed.

(** X16. The capability gate: the script first launches [ffmpeg -version]
    once.  When that process exits with status 0 the script goes on with
    the page, in the world the probe left.  When it exits with another
    status, is not found or times out, the script shows the installation
    notice and stops: whatever was uploaded or pressed, nothing is
    cleared, converted or archived.  Any other failure to launch leaves
    the script as the exception it is. *)
Theorem script_gate (uploaded_files : list UploadedFile) (clicked : bool) (w : World) :
  let pr := process ["ffmpeg"; "-version"] 10 (fs w) in
  let w1 := after_run w ["ffmpeg"; "-version"] 10 pr.2 in
  let s := script process mktemp zip_encode uploaded_files clicked w in
  (forall cp, pr.1 = Return cp -> returncode cp = 0 ->
              s = page process mktemp zip_encode uploaded_files clicked w1) /\
  (forall cp, pr.1 = Return cp -> returncode cp <> 0 -> s = (Return PageNoFfmpeg, w1)) /\
  (forall m, pr.1 = Raise (FileNotFoundError m) -> s = (Return PageNoFfmpeg, w1)) /\
  (forall m, pr.1 = Raise (TimeoutExpired m) -> s = (Return PageNoFfmpeg, w1)) /\
  (forall e, pr.1 = Raise e ->
             (forall m, e <> FileNotFoundError m) -> (forall m, e <> TimeoutExpired m) ->
             s = (Raise e, w1)).
Proof.
  cbv zeta. unfold script, check_ffmpeg, bind, subprocess_run, ret, after_run.
  destruct (process ["ffmpeg"; "-version"] 10 (fs w)) as [[cp | e] f]; cbn [fst snd].
  - split; [| split; [| repeat split; intros; discriminate]].
    + intros cp' [= <-] Hrc. now rewrite Hrc.
    + intros cp' [= <-] Hrc. apply Z.eqb_neq in Hrc. now rewrite Hrc.
  - split; [intros; discriminate |]. split; [intros; discriminate |].
    destruct e as [m | m | m | m | m | m];
      (split; [intros; congruence |]); (split; [intros; congruence |]);
      intros e' [= <-] Hnf Hnt; try reflexivity.
    + now destruct (Hnf m).
    + now destruct (Hnt m).
Qed.

Lemma deliver_runs (converted errs : list string) (w : World) :
  runs (deliver zip_encode converted errs w).2 = runs w.
Proof.
  unfold deliver. destruct converted as [|p rest]; [reflexivity |].
  unfold bind at 1.
  pose proof (read_downloads_world (p :: rest) [] w) as Hw.
  destruct (read_downloads (p :: rest) [] w) as [[ds | e] w1]; cbn [snd] in Hw; subst w1;
    [| reflexivity].
  destruct (1 <? Z.of_nat (length (p :: rest))); [| reflexivity].
  unfold create_zip, bind, get_fs, put_fs, log_archive, ret, read_bytes.
  cbn beta iota zeta.
  destruct (zip_members _ (p :: rest)) as [members [ex |]]; cbn beta iota zeta;
    [reflexivity |].
  unfold bind, get_fs, ret. cbn beta iota zeta. cbn [fs].
  rewrite lookup_insert_eq. reflexivity.
Qed.

(** X17. A rejected upload never reaches the worker.  Without the button
    pressed the page changes nothing.  With it pressed, the processes the
    page launches are exactly one per accepted upload, in upload order,
    each for that upload's output path; and every accepted upload is one
    of the uploads and passes [validate_file]. *)
Theorem page_converts_accepted_only (uploaded_files : list UploadedFile)
        (clicked : bool) (w : World) :
  let valid := (validate_all uploaded_files).1 in
  let w' := (page process mktemp zip_encode uploaded_files clicked w).2 in
  (clicked = false -> w' = w) /\
  (clicked = true ->
   exists tmps, length tmps = length valid /\
                runs w' = (runs w ++ map run_of (zip valid tmps))%list) /\
  (forall u, In u valid -> In u uploaded_files /\ (validate_file u).1 = true).
Proof.
  cbv zeta. split; [| split].
  - intros ->. unfold page. destruct uploaded_files as [|u rest]; [reflexivity |].
    destruct (validate_all (u :: rest)) as [[|v valid] invalid]; reflexivity.
  - intros ->. unfold page. destruct uploaded_files as [|u rest].
    { exists []. cbn. now rewrite app_nil_r. }
    destruct (validate_all (u :: rest)) as [[|v valid] invalid]; cbn [fst].
    { exists []. cbn. now rewrite app_nil_r. }
    unfold bind.
    assert (Hruns : exists tmps, length tmps = length (v :: valid) /\
              runs (run_batch process mktemp zip_encode (v :: valid) w).2
              = (runs w ++ map run_of (zip (v :: valid) tmps))%list).
    { rewrite run_batch_unfold. cbv zeta. rewrite deliver_runs.
      destruct (convert_loop_outcomes process mktemp (v :: valid) [] []
                  (with_fs w (cleared (fs w)))) as (_ & ts & _ & Hlt & _ & _ & Hr & _).
      exists ts. split; [exact Hlt | exact Hr]. }
    destruct (run_batch process mktemp zip_encode (v :: valid) w) as [[view | e] w1];
      exact Hruns.
  - intros u Hu. rewrite validate_all_valid in Hu.
    now apply filter_In in Hu.
Qed.

End WholeBatches.

(** ** The further properties at concrete inputs *)

Lemma convert_empty_output_witness :
  (convert_mp4_to_mp3 ffmpeg_silent TMP "output/a.mp3" world0).1
  = conv_fail MSG_EMPTY_OUTPUT.
Proof.
  apply (convert_empty_output ffmpeg_silent TMP "output/a.mp3" world0
           {| returncode := 0; stdout := ""; stderr := "" |} ∅).
  - reflexivity.
  - reflexivity.
  - left. reflexivity.
Defined.

Lemma convert_launch_failure_witness :
  (convert_mp4_to_mp3 ffmpeg_denied TMP "output/a.mp3" world0).1
  = conv_fail "[Errno 13] Permission denied: 'ffmpeg'".
Proof.
  apply (convert_launch_failure ffmpeg_denied TMP "output/a.mp3" world0
           (PermissionError "[Errno 13] Permission denied: 'ffmpeg'") ∅).
  - reflexivity.
  - discriminate.
Defined.

Lemma mp3_name_replaces_extension_witness :
  mp3_name (upload "Holiday.MP4") = "Holiday.mp3" /\
  mp3_name (upload ".mp4") = ".mp4.mp3".
Proof.
  split.
  - refine (proj1 (NameFacts.mp3_name_replaces_extension
                     (upload "Holiday.MP4") "" "Holiday" ".MP4" _ _ _ _));
      first [reflexivity | now left].
  - refine (proj1 (NameFacts.mp3_name_replaces_extension
                     (upload ".mp4") "" "" ".mp4" _ _ _ _));
      first [reflexivity | now left].
Defined.

Lemma output_path_collision_witness :
  output_path (upload "a.mp4") = output_path (upload "a.MP4").
Proof.
  refine (proj2 (NameFacts.output_path_collision
                   (upload "a.mp4") (upload "a.MP4") "a" ".mp4" "a" ".MP4"
                   _ _ _ _ _ _ _ _) _);
    first [reflexivity | discriminate].
Defined.

Lemma create_zip_written_witness :
  (create_zip zip_concat ["output/old.mp3"] world_used).1
  = Return "output/todos_mp3.zip" /\
  fs (create_zip zip_concat ["output/old.mp3"] world_used).2 !! "output/notes.txt"
  = Some [x68; x69].
Proof.
  destruct (create_zip_written zip_concat ["output/old.mp3"] world_used)
    as (members & Hr & _ & _ & Hframe & _).
  - intros p Hp. apply list_elem_of_singleton in Hp. subst p. vm_compute. eauto.
  - intros H. apply list_elem_of_singleton in H. discriminate H.
  - split; [exact Hr |]. rewrite Hframe by discriminate. reflexivity.
Defined.

Lemma create_zip_again_witness :
  fs (create_zip zip_concat ["output/old.mp3"]
                 (create_zip zip_concat ["output/old.mp3"] world_used).2).2
  = fs (create_zip zip_concat ["output/old.mp3"] world_used).2.
Proof.
  apply (create_zip_again zip_concat ["output/old.mp3"] world_used).
  - intros p Hp. apply list_elem_of_singleton in Hp. subst p. vm_compute. eauto.
  - intros H. apply list_elem_of_singleton in H. discriminate H.
Defined.

Lemma create_zip_missing_file_witness :
  (create_zip zip_concat ["output/old.mp3"; "output/gone.mp3"] world_used).1
  = Raise (FileNotFoundError
             "[Errno 2] No such file or directory: 'output/gone.mp3'").
Proof.
  refine (f_equal fst (create_zip_missing_file zip_concat ["output/old.mp3"]
                         "output/gone.mp3" [] world_used _ _ _ _)).
  - intros p Hp. apply list_elem_of_singleton in Hp. subst p. vm_compute. eauto.
  - intros H. apply list_elem_of_singleton in H. discriminate H.
  - split; [reflexivity |]. split; [reflexivity |].
    exists "gone.mp3". split; [reflexivity |]. split; [reflexivity |].
    vm_compute. discriminate.
  - discriminate.
Defined.

Lemma deliver_missing_file_witness :
  deliver zip_concat ["output/old.mp3"; "output/gone.mp3"] [] world_used
  = (Raise (FileNotFoundError
              "[Errno 2] No such file or directory: 'output/gone.mp3'"),
     world_used).
Proof.
  refine (deliver_missing_file zip_concat ["output/old.mp3"] "output/gone.mp3" [] []
            world_used _ _ _).
  - intros p Hp. apply list_elem_of_singleton in Hp. subst p. vm_compute. eauto.
  - apply NoDup_singleton.
  - split; [reflexivity |]. split; [reflexivity |].
    exists "gone.mp3". split; [reflexivity |]. split; [reflexivity |].
    vm_compute. discriminate.
Defined.

Lemma run_batch_all_fail_witness :
  exists errs w',
    run_batch (ffmpeg_failing DIAG) mktemp_fixed zip_concat
              [upload "a.mp4"; upload "b.mp4"] world_used
    = (Return {| converted_files := []; errors := errs; downloads := [];
                 bundle := None |}, w') /\
    Forall2 (fun u line => exists m, line = error_line (name u) m)
            [upload "a.mp4"; upload "b.mp4"] errs /\
    archives w' = archives world_used.
Proof.
  apply (run_batch_all_fail (ffmpeg_failing DIAG) mktemp_fixed zip_concat).
  intros argv f cp H. injection H as <-. discriminate.
Defined.

Lemma run_batch_all_succeed_witness :
  exists view w',
    run_batch ffmpeg_good mktemp_fixed zip_concat
              [upload "a.mp4"; upload "b.mp4"] world_used = (Return view, w') /\
    converted_files view = map output_path [upload "a.mp4"; upload "b.mp4"] /\
    errors view = [] /\
    map file_name (downloads view) = map mp3_name [upload "a.mp4"; upload "b.mp4"] /\
    (is_Some (bundle view) <-> (1 < length [upload "a.mp4"; upload "b.mp4"])%nat) /\
    (forall u, u ∈ [upload "a.mp4"; upload "b.mp4"] ->
               exists d, fs w' !! output_path u = Some d /\ d <> []).
Proof.
  apply (run_batch_all_succeed ffmpeg_good mktemp_fixed zip_concat).
  - intros inp out f. exists {| returncode := 0; stdout := ""; stderr := "" |}, ID3.
    split; [reflexivity |]. split; [reflexivity | discriminate].
  - intros f s u H. unfold mktemp_fixed, output_path, path_join, OUTPUT_DIR in H.
    cbn in H. discriminate H.
  - vm_compute. apply NoDup_cons. split; [| apply NoDup_singleton].
    intros H. apply list_elem_of_In in H. destruct H as [H | []]. discriminate H.
Defined.
